(** * ExoRad2: target catalogues and the payload build tasks

    A shallow embedding of [exorad/models/target.py] and
    [exorad/tasks/instrumentHandler.py], and the properties of the
    specification that concern them.

    Python text is modelled as [string] (ASCII text: [lower] acts on the
    letters A-Z and leaves every other character alone).  Code that can raise
    or log runs in the monad [M]: a computation yields the events it emitted,
    in order, and either a value or the exception that ended it. *)

From Stdlib Require Import ZArith Bool Lia Ascii String.
From stdpp Require Import base option list strings gmap fin_maps.

Set Warnings "-register-all".
Open Scope string_scope.
Open Scope Z_scope.

(** ** The Python run-time fragment the sources rely on *)

Module Py.

(** Exceptions raised in the modelled code. *)
Inductive exn :=
| ValueError
| IOError (msg : string)
| KeyError (key : string)
| AttributeError (attr : string)
| IndexError
| TypeError
| ReError.

(** Levels of [exorad.log.logger.Logger]. *)
Inductive level := DEBUG | INFO | WARNING | ERROR.

(** What a run leaves behind, in order: log records, task invocations, and
    the calls made on the collaborators that are outside the sources.  A
    message the code builds with [format] from a [dict] or an object is
    recorded by its template. *)
Inductive event :=
| Log (lvl : level) (msg : string)
| Run (task : string)
| New (cls name : string)
| StoreOpen (path : string)
| StoreClose (path : string)
| UnitCall (text : string).

Inductive outcome (A : Type) :=
| Return (a : A)
| Raise (e : exn).
Arguments Return {A} a.
Arguments Raise {A} e.

Definition M (A : Type) : Type := list event * outcome A.

Definition ret {A} (a : A) : M A := ([], Return a).
Definition raise {A} (e : exn) : M A := ([], Raise e).
Definition emit (ev : event) : M unit := ([ev], Return tt).

Definition bind {A B} (m : M A) (k : A -> M B) : M B :=
  match m with
  | (t, Return a) => let '(t', r) := k a in ((t ++ t')%list, r)
  | (t, Raise e) => (t, Raise e)
  end.

(** [try: m  except <matching>: h]: the handler runs when [m] raised an
    exception that [catches] accepts; what [m] emitted before stays. *)
Definition try_except {A} (m : M A) (catches : exn -> bool) (h : M A) : M A :=
  match m with
  | (t, Raise e) => if catches e then let '(t', r) := h in ((t ++ t')%list, r) else m
  | _ => m
  end.

(** [try: m  finally: f], as used by a [with] block. *)
Definition try_finally {A} (m : M A) (f : M unit) : M A :=
  match m, f with
  | (t, r), (t', Return _) => ((t ++ t')%list, r)
  | (t, _), (t', Raise e) => ((t ++ t')%list, Raise e)
  end.

Definition trace {A} (m : M A) : list event := fst m.
Definition result {A} (m : M A) : outcome A := snd m.

Definition log (lvl : level) (msg : string) : M unit := emit (Log lvl msg).

Definition is_log (lvl : level) (ev : event) : bool :=
  match ev, lvl with
  | Log DEBUG _, DEBUG | Log INFO _, INFO
  | Log WARNING _, WARNING | Log ERROR _, ERROR => true
  | _, _ => false
  end.

(** Sequencing a loop body over a list, left to right. *)
Fixpoint mapM {A B} (f : A -> M B) (l : list A) : M (list B) :=
  match l with
  | [] => ret []
  | x :: l' => bind (f x) (fun y => bind (mapM f l') (fun ys => ret (y :: ys)))
  end.

(** *** [str] methods *)

Definition lower_char (c : ascii) : ascii :=
  let n := Ascii.N_of_ascii c in
  if ((65 <=? n) && (n <=? 90))%N then Ascii.ascii_of_N (n + 32) else c.

(** [s.lower()] *)
Fixpoint lower (s : string) : string :=
  match s with
  | EmptyString => EmptyString
  | String c s' => String (lower_char c) (lower s')
  end.

(** [s.isascii()] *)
Fixpoint is_ascii (s : string) : bool :=
  match s with
  | EmptyString => true
  | String c s' => (Ascii.N_of_ascii c <? 128)%N && is_ascii s'
  end.

(** [s.replace(c, '')] for a one-character [c]. *)
Fixpoint remove_char (c : ascii) (s : string) : string :=
  match s with
  | EmptyString => EmptyString
  | String a s' =>
      if Ascii.eqb a c then remove_char c s' else String a (remove_char c s')
  end.

Fixpoint startswith (p s : string) : bool :=
  match p, s with
  | EmptyString, _ => true
  | String a p', String b s' => Ascii.eqb a b && startswith p' s'
  | String _ _, EmptyString => false
  end.

(** [s.endswith(suffix)] *)
Fixpoint endswith (suffix s : string) : bool :=
  String.eqb s suffix ||
  match s with
  | EmptyString => false
  | String _ s' => endswith suffix s'
  end.

(** [s[-1]], when there is one *)
Fixpoint last_char (s : string) : option ascii :=
  match s with
  | EmptyString => None
  | String a EmptyString => Some a
  | String _ s' => last_char s'
  end.

(** [p in s] *)
Fixpoint contains (p s : string) : bool :=
  startswith p s ||
  match s with
  | EmptyString => false
  | String _ s' => contains p s'
  end.

(** [s.split(c)] for a one-character separator: every occurrence cuts, so
    neighbouring separators give empty pieces. *)
Fixpoint split (c : ascii) (s : string) : list string :=
  match s with
  | EmptyString => [EmptyString]
  | String a s' =>
      if Ascii.eqb a c then EmptyString :: split c s'
      else match split c s' with
           | [] => [String a EmptyString]
           | w :: ws => String a w :: ws
           end
  end.

(** [s[n:]] and [s[:n]] for [0 <= n]. *)
Fixpoint drop (n : nat) (s : string) : string :=
  match n, s with
  | O, _ => s
  | S n', String _ s' => drop n' s'
  | S _, EmptyString => EmptyString
  end.

Fixpoint take (n : nat) (s : string) : string :=
  match n, s with
  | O, _ => EmptyString
  | S n', String a s' => String a (take n' s')
  | S _, EmptyString => EmptyString
  end.

(** [s.rfind(c)], positions counted from [i] at the head of [s]; [-1] when
    [c] does not occur. *)
Fixpoint rfind_from (c : ascii) (s : string) (i : Z) : Z :=
  match s with
  | EmptyString => -1
  | String a s' =>
      let r := rfind_from c s' (i + 1) in
      if 0 <=? r then r else if Ascii.eqb a c then i else -1
  end.

Definition rfind (c : ascii) (s : string) : Z := rfind_from c s 0.

(** *** Insertion-ordered [dict]s with text keys *)

Fixpoint assoc {A} (k : string) (items : list (string * A)) : option A :=
  match items with
  | [] => None
  | (k', v) :: items' => if String.eqb k k' then Some v else assoc k items'
  end.

(** [d[k] = v] *)
Fixpoint dict_set {A} (k : string) (v : A) (items : list (string * A))
  : list (string * A) :=
  match items with
  | [] => [(k, v)]
  | (k', v') :: items' =>
      if String.eqb k k' then (k, v) :: items' else (k', v') :: dict_set k v items'
  end.

(** *** [os.path.splitext] (posixpath: [sep = '/'], no [altsep],
    [extsep = '.'])

    [genericpath._splitext]: the extension starts at the last dot of the
    last path component, unless that component has nothing but dots in
    front of it. *)

(** The [while filenameIndex < dotIndex] loop: is some character of
    [p[filenameIndex:dotIndex]] not a dot?  [n] is [dotIndex -
    filenameIndex]. *)
Fixpoint has_non_dot (n : nat) (s : string) : bool :=
  match n, s with
  | S n', String a s' => negb (Ascii.eqb a ".")%char || has_non_dot n' s'
  | _, _ => false
  end.

Definition splitext (p : string) : string * string :=
  let sepIndex := rfind "/"%char p in
  let dotIndex := rfind "."%char p in
  if (sepIndex <? dotIndex)
     && has_non_dot (Z.to_nat (dotIndex - (sepIndex + 1)))
                    (drop (Z.to_nat (sepIndex + 1)) p)
  then (take (Z.to_nat dotIndex) p, drop (Z.to_nat dotIndex) p)
  else (p, EmptyString).

End Py.

Import Py.

#[global] Instance M_ret : MRet M := @ret.
#[global] Instance M_bind : MBind M := fun A B k m => bind m k.

(** ** [exorad/tasks/instrumentHandler.py] *)

Module instrumentHandler.

(** A payload description: the nested mapping read from the payload file.
    A [dict] keeps its keys in insertion order, which is the order
    [BuildChannels] walks the channels in. *)
Inductive tree :=
| Str (s : string)
| Num (z : Z)
| Dict (items : list (string * tree)).

(** [t[k]] *)
Definition getitem (t : tree) (k : string) : M tree :=
  match t with
  | Dict items =>
      match assoc k items with
      | Some v => ret v
      | None => raise (KeyError k)
      end
  | _ => raise TypeError
  end.

(** [t.keys()] *)
Definition keys (t : tree) : M (list string) :=
  match t with
  | Dict items => ret (items.*1)
  | _ => raise (AttributeError "keys")
  end.

(** [t.lower()] *)
Definition str_lower (t : tree) : M string :=
  match t with
  | Str s => ret (lower s)
  | _ => raise (AttributeError "lower")
  end.

(** The classes of [exorad.models.instruments]. *)
Inductive instrument_class := Photometer | Spectrometer.

Definition class_name (c : instrument_class) : string :=
  match c with
  | Photometer => "Photometer"
  | Spectrometer => "Spectrometer"
  end.

(** [instruments = {'photometer': Photometer, 'spectrometer': Spectrometer}] *)
Definition instruments : gmap string instrument_class :=
  <["photometer" := Photometer]> (<["spectrometer" := Spectrometer]> ∅).

(** The collaborators that are not part of the sources: the instrument
    classes, the HDF5 output store, and the tasks [LoadOptions] and
    [LoadPayload] (the latter reads the store through
    [exorad.output.hdf5.load] and [read_table_hdf5]). *)
Class Collaborators := {
  Instrument : Type;
  Store : Type;
  (** [instrumentClass(name, description, payload)] *)
  construct : instrument_class -> string -> tree -> tree -> M Instrument;
  (** [instrument.build()] *)
  build : Instrument -> M Instrument;
  (** [instrument.write(output)]; [output] may be [None] *)
  write : Instrument -> option Store -> M unit;
  (** [output.create_group(name)] *)
  create_group : Store -> string -> M Store;
  (** [group.store_dictionary(d, group_name=name)] *)
  store_dictionary : Store -> tree -> string -> M unit;
  (** [HDF5Output(path).__enter__()] *)
  open_store : string -> M Store;
  (** [LoadOptions.execute], by file name *)
  LoadOptions_execute : string -> M tree;
  (** [LoadPayload.execute], by its [input] *)
  LoadPayload_execute : string -> M (tree * list (string * Instrument));
}.

Section Tasks.
Context `{Collaborators}.

(** [Task.__call__]: bind the parameters, run [execute], hand back the
    output.  The run is recorded under the task's name. *)
Definition call {A} (task : string) (execute : M A) : M A :=
  emit (Run task);; execute.

Definition is_KeyError (e : exn) : bool :=
  match e with KeyError _ => true | _ => false end.

(** [BuildInstrument.execute] *)
Definition BuildInstrument_execute
    (type name : string) (description payload : tree)
    (write_param : bool) (output : option Store) : M Instrument :=
  instrumentClass ←
    try_except
      (match instruments !! type with
       | Some c => ret c
       | None => raise (KeyError type)
       end)
      is_KeyError
      (log ERROR "invalid instrument class";; raise ValueError);
  emit (New (class_name instrumentClass) name);;
  instrument ← construct instrumentClass name description payload;
  instrument ← build instrument;
  (if write_param then write instrument output else ret tt);;
  ret instrument.

(** The body of the [for det in ...] loop of [BuildChannels.execute]. *)
Definition BuildChannels_step (payload : tree) (write_param : bool)
    (ch : option Store) (channels : list (string * Instrument)) (det : string)
  : M (list (string * Instrument)) :=
  chans ← getitem payload "channel";
  descr ← getitem chans det;
  cc ← getitem descr "channelClass";
  v ← getitem cc "value";
  channel_type ← str_lower v;
  instrument ←
    call "BuildInstrument"
         (BuildInstrument_execute channel_type det descr payload false None);
  (if write_param then write instrument ch else ret tt);;
  ret (dict_set det instrument channels).

Fixpoint BuildChannels_loop (payload : tree) (write_param : bool)
    (ch : option Store) (channels : list (string * Instrument))
    (dets : list string) : M (list (string * Instrument)) :=
  match dets with
  | [] => ret channels
  | det :: dets' =>
      channels' ← BuildChannels_step payload write_param ch channels det;
      BuildChannels_loop payload write_param ch channels' dets'
  end.

(** [BuildChannels.execute] *)
Definition BuildChannels_execute
    (payload : tree) (write_param : bool) (output : option Store)
  : M (list (string * Instrument)) :=
  log INFO "building channel";;
  chans ← getitem payload "channel";
  _ ← keys chans;
  log DEBUG "detectors found : {}";;
  ch ← (if write_param then
          match output with
          | Some out =>
              inst ← create_group out "payload";
              store_dictionary inst payload "payload description";;
              g ← create_group inst "channels";
              ret (Some g)
          | None => raise (AttributeError "create_group")
          end
        else ret None);
  chans ← getitem payload "channel";
  dets ← keys chans;
  channels ← BuildChannels_loop payload write_param ch [] dets;
  log DEBUG "channels : {}";;
  ret channels.

(** [PreparePayload.execute].  The three child tasks are instantiated
    first; a task runs only when it is called. *)
Definition PreparePayload_execute
    (payload_file : string) (output : option string)
  : M (tree * list (string * Instrument) * (tree * tree)) :=
  let ext := (splitext payload_file).2 in
  '(payload, channels) ←
    (if String.eqb ext ".xml" then
       payload ← call "LoadOptions" (LoadOptions_execute payload_file);
       channels ←
         match output with
         | Some path =>
             out ← open_store path;
             emit (StoreOpen path);;
             try_finally
               (call "BuildChannels" (BuildChannels_execute payload true (Some out)))
               (emit (StoreClose path))
         | None =>
             call "BuildChannels" (BuildChannels_execute payload false None)
         end;
       ret (payload, channels)
     else if String.eqb ext "h5" then
       call "LoadPayload" (LoadPayload_execute payload_file)
     else
       log ERROR "Unsupported payload format";;
       raise (IOError "Unsupported payload format"));
  common ← getitem payload "common";
  lo ← getitem common "wl_min";
  wl_min ← getitem lo "value";
  hi ← getitem common "wl_max";
  wl_max ← getitem hi "value";
  ret (payload, channels, (wl_min, wl_max)).

(** How [PreparePayload.execute] ends in its [else] branch. *)
Definition unsupported_format
  : M (tree * list (string * Instrument) * (tree * tree)) :=
  log ERROR "Unsupported payload format";;
  raise (IOError "Unsupported payload format").

(** Was a child task of [PreparePayload] run? *)
Definition is_Run (ev : event) : bool :=
  match ev with Run _ => true | _ => false end.

Definition is_New (ev : event) : bool :=
  match ev with New _ _ => true | _ => false end.

End Tasks.

End instrumentHandler.

(** ** [exorad/models/target.py] *)

Module target.

(** [compactString = lambda string: string.replace(' ', '').replace('-', '').lower()] *)
Definition compactString (s : string) : string :=
  lower (remove_char "-" (remove_char " " s)).

(** [stripUnitString = lambda string: string.replace('[', '').replace(']', '')] *)
Definition stripUnitString (s : string) : string :=
  remove_char "]" (remove_char "[" s).

(** [astropy.units]: numbers, unit handles, and the parser [u.Unit], which
    raises [ValueError] on text it cannot read ([None] here). *)
Class Astropy := {
  num : Type;
  UnitBase : Type;
  Unit : string -> option UnitBase;
}.

(** A class as far as attribute lookup, [isinstance] and [type] need it. *)
Record pyclass := {
  cname : string;
  mro : list string;
  members : list string;
}.

Section Objects.
Context `{Astropy}.

(** Python values: [None], integers, catalogue numbers, text, quantities
    ([x] in unit [u]), bound methods, and objects with their class and
    their [__dict__]. *)
Inductive value :=
| VNone
| VInt (z : Z)
| VNum (x : num)
| VStr (s : string)
| VQty (x : num) (u : UnitBase)
| VMethod (name : string)
| VObj (c : pyclass) (d : gmap string value).

Definition builtin (name : string) : pyclass :=
  {| cname := name; mro := [name; "object"]; members := [] |}.

(** [type(v)] *)
Definition type_of (v : value) : pyclass :=
  match v with
  | VNone => builtin "NoneType"
  | VInt _ => builtin "int"
  | VNum _ => builtin "float"
  | VStr _ => builtin "str"
  | VQty _ _ => builtin "Quantity"
  | VMethod _ => builtin "method"
  | VObj c _ => c
  end.

(** [isinstance(v, cls)] *)
Definition isinstance (v : value) (cls : string) : bool :=
  bool_decide (cls ∈ mro (type_of v)).

(** [o.name]: the instance [__dict__] first, then the members of the
    class. *)
Definition getattr (o : value) (name : string) : M value :=
  match o with
  | VObj c d =>
      match d !! name with
      | Some v => ret v
      | None =>
          if bool_decide (name ∈ members c) then ret (VMethod name)
          else raise (AttributeError name)
      end
  | _ => raise (AttributeError name)
  end.

(** [o.name = v] *)
Definition setattr (o : value) (name : string) (v : value) : M value :=
  match o with
  | VObj c d => ret (VObj c (<[name := v]> d))
  | _ => raise (AttributeError name)
  end.

(** [format(c, spec)] for a class object [c].  Classes have no
    [__format__] of their own (their metaclass is [type]), so
    [object.__format__] answers: it returns [str(c)] for the empty
    specification and raises [TypeError] for any other. *)
Definition format_class (c : pyclass) (spec : string) : M string :=
  if String.eqb spec "" then ret ("<class '" ++ cname c ++ "'>")%string
  else raise TypeError.

End Objects.

(** What the sources import besides astropy: the [Logger] mix-in
    ([exorad.log.logger]), [re.search], and [str] on values that are not
    text. *)
Class Runtime `{Astropy} := {
  (** the attributes [Logger.set_log_name] binds on [self] *)
  set_log_name : gmap string value;
  (** the names the class [Logger] defines *)
  Logger_members : list string;
  (** [re.search(pattern, text)]: found or not, or [re.error] *)
  re_search : string -> string -> outcome bool;
  (** [str(v)] for [v] that is not a [str] *)
  str_other : value -> string;
}.

Section Target.
Context `{Runtime}.

Definition Target_class : pyclass :=
  {| cname := "Target";
     mro := ["Target"; "Logger"; "object"];
     members := (["calc_logg"; "update_target"; "write"; "to_dict"]
                   ++ Logger_members)%list |}.

(** [Target.__init__]: after [set_log_name] the body binds eight local
    names and none on [self]. *)
Definition Target_init : value :=
  let self := VObj Target_class set_log_name in
  let luminosity := VNone in
  let sed := VNone in
  let model := VNone in
  let table := VNone in
  let id := VNone in
  let star := VNone in
  let planet := VNone in
  let name := VNone in
  self.

(** The names [__init__] assigns to. *)
Definition init_locals : list string :=
  ["luminosity"; "sed"; "model"; "table"; "id"; "star"; "planet"; "name"].

(** [str(v)] *)
Definition py_str (v : value) : string :=
  match v with
  | VStr s => s
  | _ => str_other v
  end.

(** A statement that updates [self] in place: the object afterwards, and
    what the statement emitted and how it ended. *)
Definition and_then (first : value * M unit) (next : value -> value * M unit)
  : value * M unit :=
  match first with
  | (self, (t, Return _)) =>
      let '(self', (t', r)) := next self in (self', ((t ++ t')%list, r))
  | (self, (t, Raise e)) => (self, (t, Raise e))
  end.

(** [self.star.<attr> = obj.<attr>] *)
Definition star_assign (attr : string) (obj self : value) : value * M unit :=
  let m :=
    v ← getattr obj attr;
    star ← getattr self "star";
    star' ← setattr star attr v;
    setattr self "star" star' in
  match m with
  | (t, Return self') => (self', (t, Return tt))
  | (t, Raise e) => (self, (t, Raise e))
  end.

(** [Target.update_target] *)
Definition update_target (self obj : value) : value * M unit :=
  if isinstance obj "Star" || isinstance obj "CustomSed" then
    and_then (star_assign "luminosity" obj self) (fun self =>
    and_then (star_assign "sed" obj self) (fun self =>
    and_then (star_assign "model" obj self) (fun self =>
    (self, log DEBUG "target updated"))))
  else
    (self,
     shown ← format_class (type_of obj) "s";
     log WARNING ("Object type " ++ shown ++ " not implemented")%string).

(** *** [BaseTargetList] *)

(** The methods a subclass provides, once [read_data] has run. *)
Class TargetList := {
  star_keys : M (list string);
  star_data : M (list (list value));
  planet_keys : M (list string);
  planet_data : M (list (list value));
}.

(** [dict(zip(keys, row))]: a later pair replaces an earlier one with
    the same key. *)
Definition dict_zip (keys : list string) (row : list value)
  : gmap string value :=
  list_to_map (reverse (zip keys row)).

(** [o.__dict__.update(d)] *)
Definition dict_update (o : value) (d : gmap string value) : M value :=
  match o with
  | VObj c old => ret (VObj c (d ∪ old))
  | _ => raise (AttributeError "__dict__")
  end.

(** [enumerate(l)] *)
Definition enumerate {A} (l : list A) : list (nat * A) :=
  zip (seq 0 (length l)) l.

(** One round of the loop over [enumerate(zip(star_data, planet_data))]. *)
Definition target_with_planet (star_keys planet_keys : list string)
    (row : nat * (list value * list value)) : M value :=
  let '(i, (star, planet)) := row in
  let target := Target_init in
  target ← setattr target "planet" Target_init;
  target ← setattr target "star" Target_init;
  let planet_dict := dict_zip planet_keys planet in
  p ← getattr target "planet";
  p ← dict_update p planet_dict;
  target ← setattr target "planet" p;
  let star_dict := dict_zip star_keys star in
  s ← getattr target "star";
  s ← dict_update s star_dict;
  target ← setattr target "star" s;
  p ← getattr target "planet";
  name ← getattr p "name";
  target ← setattr target "name" name;
  setattr target "id" (VInt (Z.of_nat i)).

(** One round of the loop over [enumerate(star_data)]. *)
Definition target_star_only (star_keys : list string)
    (row : nat * list value) : M value :=
  let '(i, star) := row in
  let target := Target_init in
  target ← setattr target "star" Target_init;
  target ← setattr target "id" (VInt (Z.of_nat i));
  let star_dict := dict_zip star_keys star in
  s ← getattr target "star";
  s ← dict_update s star_dict;
  target ← setattr target "star" s;
  s ← getattr target "star";
  name ← getattr s "name";
  setattr target "name" name.

(** The [try: ... except: pass] around the planet section: any
    exception leaves the names at the [None] they were bound to. *)
Definition request_planets `{TargetList}
  : M (option (list string) * option (list (list value))) :=
  match planet_keys with
  | (t, Raise _) => (t, Return (None, None))
  | (t, Return pk) =>
      match planet_data with
      | (t', Raise _) => ((t ++ t')%list, Return (Some pk, None))
      | (t', Return pd) => ((t ++ t')%list, Return (Some pk, Some pd))
      end
  end.

(** [BaseTargetList.create_target_list] *)
Definition create_target_list `{TargetList} : M (list value) :=
  star_keys ← star_keys;
  star_data ← star_data;
  '(planet_keys, planet_data) ← request_planets;
  match planet_keys, planet_data with
  | Some planet_keys, Some ((_ :: _) as planet_data) =>
      mapM (target_with_planet star_keys planet_keys)
           (enumerate (zip star_data planet_data))
  | _, _ =>
      mapM (target_star_only star_keys) (enumerate star_data)
  end.

(** The test [if planet_data:] of [create_target_list]: did the request
    for the planet section return rows? *)
Definition planets_found `{TargetList} : bool :=
  match result request_planets with
  | Return (Some _, Some (_ :: _)) => true
  | _ => false
  end.

(** The test of the [if] in [searchTarget]: the star name first, the
    planet name only when the star name does not match. *)
Definition search_hit (searchName : string) (target : value) : M bool :=
  star ← getattr target "star";
  sname ← getattr star "name";
  m ← ([], re_search searchName (compactString (py_str sname)));
  if m : bool then ret true
  else
    planet ← getattr target "planet";
    pname ← getattr planet "name";
    ([], re_search searchName (compactString (py_str pname))).

Fixpoint search_loop (searchName : string) (targets returnList : list value)
  : M (list value) :=
  match targets with
  | [] => ret returnList
  | target :: rest =>
      hit ← search_hit searchName target;
      search_loop searchName rest
        (if hit : bool then (returnList ++ [target])%list else returnList)
  end.

(** [BaseTargetList.searchTarget] (and its copy in
    [OldExcelTargetList]) *)
Definition searchTarget (targets : list value) (name : string)
  : M (list value) :=
  let searchName := compactString name in
  search_loop searchName targets [].

(** *** What the specification says of these functions *)

(** The sub-record built from one row: a fresh [Target] whose [__dict__]
    took the row's fields. *)
Definition sub_record (keys : list string) (row : list value) : value :=
  VObj Target_class (dict_zip keys row ∪ set_log_name).

(** The compacted [name] of the star or planet sub-record of a target
    (empty when there is none). *)
Definition compact_name (target : value) (part : string) : string :=
  match result (o ← getattr target part; getattr o "name") with
  | Return v => compactString (py_str v)
  | Raise _ => ""
  end.

(** Does the pattern occur in the text? *)
Definition found (pattern text : string) : bool :=
  match re_search pattern text with
  | Return b => b
  | Raise _ => false
  end.

(** The search criterion: the compacted query occurs in the compacted
    star name or in the compacted planet name. *)
Definition name_matches (name : string) (target : value) : bool :=
  found (compactString name) (compact_name target "star")
  || found (compactString name) (compact_name target "planet").

End Target.

Section Catalogues.
Context `{Runtime}.

(** A cell of a sheet or of a table column: a number or text. *)
Inductive cell :=
| Number (x : num)
| Text (s : string).

Definition cell_value (c : cell) : value :=
  match c with
  | Number x => VNum x
  | Text s => VStr s
  end.

Definition is_ValueError (e : exn) : bool :=
  match e with ValueError => true | _ => false end.

(** [u.Unit(text)] *)
Definition parse_unit (text : string) : M UnitBase :=
  emit (UnitCall text);;
  match Unit text with
  | Some u => ret u
  | None => raise ValueError
  end.

(** [c * u] for a unit or a quantity of value one: a number becomes a
    quantity.  Text is rejected, as [list * Unit] does in the spreadsheet
    reader; what numpy makes of text times a quantity in the delimited-text
    reader is not modelled, and the statements about that reader keep to
    numeric columns under a unit. *)
Definition scale_cell (u : UnitBase) (c : cell) : M value :=
  match c with
  | Number x => ret (VQty x u)
  | Text _ => raise TypeError
  end.

(** *** [XLXSTargetList.__parseData__], one column *)

Definition units_row : nat := 3.
Definition data_row0 : nat := 4.

(** [dim]: the integer [1] or a unit. *)
Inductive dimension :=
| One
| Dim (u : UnitBase).

(** The [if len(str_unit) > 0: try: ... except ValueError: ...] block. *)
Definition column_dim (str_unit : string) : M dimension :=
  if (0 <? String.length str_unit)%nat then
    try_except
      (u ← parse_unit (stripUnitString str_unit); ret (Dim u))
      is_ValueError
      (log WARNING "Unrecognised physical units";; ret One)
  else ret One.

(** [values * dim]: a list times [1] is the list; a list times a unit
    is an array of quantities. *)
Definition scale_column (dim : dimension) (values : list cell)
  : M (list value) :=
  match dim with
  | One => ret (cell_value <$> values)
  | Dim u => mapM (scale_cell u) values
  end.

(** [Sheet.cell_value(rowx, colx)] *)
Definition sheet_cell (Sheet : list (list cell)) (rowx colx : nat) : M cell :=
  match Sheet !! rowx with
  | Some row =>
      match row !! colx with
      | Some c => ret c
      | None => raise IndexError
      end
  | None => raise IndexError
  end.

(** [Sheet.col_values(colx)] *)
Definition col_values (Sheet : list (list cell)) (colx : nat) : M (list cell) :=
  mapM (fun row => match row !! colx with
                   | Some c => ret c
                   | None => raise IndexError
                   end) Sheet.

(** The body of the loop over the columns: the value stored under the
    column's key. *)
Definition parseData_column (Sheet : list (list cell)) (col : nat)
  : M (list value) :=
  c ← sheet_cell Sheet units_row col;
  str_unit ← match c with
             | Text s => ret s
             | Number _ => raise TypeError
             end;
  dim ← column_dim str_unit;
  values ← col_values Sheet col;
  scale_column dim (List.skipn data_row0 values).

(** *** [CSVTargetList] *)

(** [self.tmpTab]: the columns of the file, each under its header. *)
Definition table_keys (tab : list (string * list cell)) : list string :=
  tab.*1.

(** [tab[names]] *)
Definition table_select (names : list string) (tab : list (string * list cell))
  : list (string * list cell) :=
  omap (fun k => (fun c => (k, c)) <$> assoc k tab) names.

(** [len(tab)]; a table without columns has no rows. *)
Definition table_len (tab : list (string * list cell)) : nat :=
  match tab with
  | [] => 0%nat
  | (_, c) :: _ => length c
  end.

(** [list(tab[i])] *)
Definition table_row (tab : list (string * list cell)) (i : nat)
  : M (list cell) :=
  mapM (fun col : string * list cell =>
          match col.2 !! i with
          | Some c => ret c
          | None => raise IndexError
          end) tab.

(** The first loop of [star_data]/[planet_data], for one header: the
    entry appended to [units]. *)
Definition header_unit (k : string) : M (option UnitBase) :=
  if (length (split " " k) =? 3)%nat then
    let un := nth 2 (split " " k) "" in
    u ← parse_unit (stripUnitString un);
    ret (Some u)
  else ret None.

(** [val[n] = val[n] * units[n]] when [units[n] is not None]. *)
Definition apply_unit (cu : cell * option UnitBase) : M value :=
  match cu.2 with
  | Some u => scale_cell u cu.1
  | None => ret (cell_value cu.1)
  end.

(** [star_data] and [planet_data] differ in the token only. *)
Definition csv_data (token : string) (tab : list (string * list cell))
  : M (list (list value)) :=
  let star_k := List.filter (contains token) (table_keys tab) in
  units ← mapM header_unit star_k;
  mapM (fun i =>
          val ← table_row (table_select star_k tab) i;
          mapM apply_unit (zip val units))
       (seq 0 (table_len (table_select star_k tab))).

(** [star_keys] and [planet_keys] differ in the token only. *)
Definition csv_keys (token : string) (tab : list (string * list cell))
  : M (list string) :=
  let s_col := List.filter (contains token) (table_keys tab) in
  mapM (fun k => match split " " k !! 1%nat with
                 | Some field => ret field
                 | None => raise IndexError
                 end) s_col.

Definition CSVTargetList (tmpTab : list (string * list cell)) : TargetList :=
  {| star_keys := csv_keys "star" tmpTab;
     star_data := csv_data "star" tmpTab;
     planet_keys := csv_keys "planet" tmpTab;
     planet_data := csv_data "planet" tmpTab |}.

(** *** What the specification says of the delimited-text headers *)

(** The unit annotation of a header: its third piece, brackets
    stripped, when the header has exactly three pieces. *)
Definition header_unit_text (k : string) : option string :=
  match split " " k with
  | [_; _; un] => Some (stripUnitString un)
  | _ => None
  end.

(** The unit of a column, when its header has one that [u.Unit] reads. *)
Definition unit_of_header (k : string) : option UnitBase :=
  match header_unit_text k with
  | Some text => Unit text
  | None => None
  end.

Definition is_Number (c : cell) : bool :=
  match c with
  | Number _ => true
  | Text _ => false
  end.

(** The value a cell of the column under header [k] is read as. *)
Definition expected_value (k : string) (c : cell) : value :=
  match unit_of_header k, c with
  | Some u, Number x => VQty x u
  | _, _ => cell_value c
  end.

End Catalogues.

End target.

Import instrumentHandler target.

(** ** Concrete collaborators, for running the model on examples *)

Module Examples.

(** Instruments that record their class and name and never fail; a store
    named by its path. *)
Definition collaborators : Collaborators :=
  {| Instrument := string * string;
     Store := string;
     construct := fun c name _ _ => ret (class_name c, name);
     build := fun i => ret i;
     write := fun _ _ => ret tt;
     create_group := fun st name => ret (st ++ "/" ++ name)%string;
     store_dictionary := fun _ _ _ => ret tt;
     open_store := fun path => ret path;
     LoadOptions_execute := fun _ =>
       ret (Dict [("channel", Dict []);
                  ("common", Dict [("wl_min", Dict [("value", Num 1)]);
                                   ("wl_max", Dict [("value", Num 10)])])]);
     LoadPayload_execute := fun _ => raise TypeError |}.

(** Integers for numbers; a unit is the text it was read from, and a
    handful of unit names are known. *)
Definition astropy : Astropy :=
  {| num := Z;
     UnitBase := string;
     Unit := fun text =>
       if bool_decide (text ∈ [""; "K"; "m"; "s"; "Rsun"; "Msun"; "Rjup"; "Mjup"])
       then Some text else None |}.

Definition metachars : list ascii :=
  ["."; "^"; "$"; "*"; "+"; "?"; "{"; "}"; "["; "]"; "\"; "|"; "("; ")"]%char.

Fixpoint plain (pattern : string) : bool :=
  match pattern with
  | EmptyString => true
  | String c rest => negb (bool_decide (c ∈ metachars)) && plain rest
  end.

(** [re.search] where its answer is plain to see: a pattern without
    metacharacters is looked up as a substring.  Other patterns are turned
    down here; the examples use this only for patterns [re] turns down
    too, such as a lone opening parenthesis. *)
Definition search (pattern text : string) : outcome bool :=
  if plain pattern then Return (contains pattern text) else Raise ReError.

Definition runtime : @Runtime astropy :=
  {| set_log_name := {["_log_name" := VStr "exorad.Target"]};
     Logger_members :=
       ["set_log_name"; "info"; "warning"; "debug"; "error"; "critical"];
     re_search := search;
     str_other := fun _ => "" |}.

(** A catalogue with a planet section, and one without. *)
Definition with_planet : list (string * list (@cell astropy)) :=
  [("star name", [Text "HD 209458"]);
   ("star Teff [K]", [@Number astropy 6000]);
   ("planet name", [Text "HD 209458 b"]);
   ("planet Radius [Rjup]", [@Number astropy 1])].

Definition stars_only : list (string * list (@cell astropy)) :=
  [("star name", [Text "HD 209458"; Text "Sun"]);
   ("star Teff [K]", [@Number astropy 6000; @Number astropy 5772])].

(** A target with a named star and a named planet. *)
Definition named (name : string) : @value astropy :=
  VObj (@Target_class _ runtime) {["name" := VStr name]}.

Definition system (star planet : string) : @value astropy :=
  VObj (@Target_class _ runtime)
       (<["star" := named star]> {["planet" := named planet]}).

(** A [Star] with the three attributes [update_target] copies, and one that
    has only a luminosity. *)
Definition Star_class : pyclass :=
  {| cname := "Star"; mro := ["Star"; "Logger"; "object"]; members := [] |}.

Definition sun : @value astropy :=
  VObj Star_class
       (<["luminosity" := VInt 1]>
          (<["sed" := VStr "sed"]> {["model" := VStr "phoenix"]})).

Definition dim_star : @value astropy :=
  VObj Star_class {["luminosity" := VInt 1]}.

End Examples.


(** ** Text lemmas *)

Lemma append_cons (a : ascii) (s t : string) :
  (String a s ++ t)%string = String a (s ++ t)%string.
Proof. reflexivity. Qed.

Lemma append_empty_r (s : string) : (s ++ "")%string = s.
Proof. induction s as [|a s IH]; [reflexivity | now rewrite append_cons, IH]. Qed.

Lemma take_drop_string (n : nat) (s : string) : (take n s ++ drop n s)%string = s.
Proof.
  revert s; induction n as [|n IH]; intros [|a s]; try reflexivity.
  change (String a (take n s ++ drop n s)%string = String a s). now rewrite IH.
Qed.

(** Where [rfind] finds the character, the text from there on starts with
    it. *)
Lemma rfind_from_found (c : ascii) (s : string) (i : Z) :
  0 <= i ->
  rfind_from c s i = -1 ∨
  ∃ n rest, rfind_from c s i = i + Z.of_nat n ∧ drop n s = String c rest.
Proof.
  revert i; induction s as [|a s IH]; intros i Hi; simpl; [now left|].
  destruct (IH (i + 1) ltac:(lia)) as [E | (n & rest & E & D)].
  - rewrite E; simpl.
    destruct (Ascii.eqb_spec a c) as [->|_]; [right | now left].
    exists 0%nat, s. split; [lia | reflexivity].
  - right. rewrite E.
    destruct (Z.leb_spec 0 (i + 1 + Z.of_nat n)); [|lia].
    exists (S n), rest. split; [lia | exact D].
Qed.

(** The extension [splitext] returns is empty or starts with a dot. *)
Lemma splitext_ext_shape (p : string) :
  (splitext p).2 = "" ∨ ∃ rest, (splitext p).2 = String "."%char rest.
Proof.
  unfold splitext.
  destruct (_ && _) eqn:E; [right | now left]. simpl.
  apply andb_true_iff in E as [E _]. apply Z.ltb_lt in E.
  unfold rfind in *.
  destruct (rfind_from_found "."%char p 0 ltac:(lia)) as [D | (n & rest & D & Hd)];
    destruct (rfind_from_found "/"%char p 0 ltac:(lia)) as [S | (m & rest' & S & _)];
    rewrite ?D, ?S in *; try lia.
  all: exists rest; replace (Z.to_nat (0 + Z.of_nat n)) with n by lia; exact Hd.
Qed.

Lemma splitext_join (p : string) :
  ((splitext p).1 ++ (splitext p).2)%string = p.
Proof.
  unfold splitext. destruct (_ && _); simpl.
  - apply take_drop_string.
  - apply append_empty_r.
Qed.

(** No path has the extension ["h5"]: the test [ext == 'h5'] never holds. *)
Lemma splitext_ext_not_h5 (p : string) : (splitext p).2 ≠ "h5".
Proof.
  destruct (splitext_ext_shape p) as [-> | [rest ->]]; discriminate.
Qed.

Lemma last_char_app (r t : string) :
  t ≠ "" -> last_char (r ++ t) = last_char t.
Proof.
  intros Ht. induction r as [|a r IH]; [reflexivity|].
  rewrite append_cons, <- IH. simpl. destruct (r ++ t)%string eqn:E; [|reflexivity].
  destruct r; [contradiction | discriminate].
Qed.

Lemma endswith_cons (suffix : string) (a : ascii) (s : string) :
  endswith suffix (String a s) = String.eqb (String a s) suffix || endswith suffix s.
Proof. reflexivity. Qed.

Lemma endswith_last_char (suffix s : string) :
  suffix ≠ "" -> endswith suffix s = true -> last_char s = last_char suffix.
Proof.
  intros Hs. induction s as [|a s IH].
  - destruct suffix; [contradiction | discriminate].
  - rewrite endswith_cons. intros [E | E]%orb_true_iff.
    + apply String.eqb_eq in E. now rewrite <- E.
    + rewrite <- (IH E). destruct s; [|reflexivity].
      destruct suffix; [contradiction | discriminate].
Qed.

(** A path that ends in ["h5"] does not have the extension [".xml"]. *)
Lemma h5_suffix_not_xml (p : string) :
  endswith "h5" p = true -> (splitext p).2 ≠ ".xml".
Proof.
  intros E Hx. apply endswith_last_char in E; [|discriminate].
  rewrite <- (splitext_join p), Hx, last_char_app in E; discriminate.
Qed.

(** ** [PreparePayload]: dispatch on the file extension *)

Section PreparePayloadFacts.
Context `{Collaborators}.

(** Every extension other than [".xml"] ends in the [else] branch. *)
Lemma PreparePayload_not_xml (payload_file : string) (output : option string) :
  (splitext payload_file).2 ≠ ".xml" ->
  PreparePayload_execute payload_file output = unsupported_format.
Proof.
  intros Hx. unfold PreparePayload_execute.
  destruct (String.eqb_spec (splitext payload_file).2 ".xml") as [E|_];
    [contradiction|].
  destruct (String.eqb_spec (splitext payload_file).2 "h5") as [E|_];
    [now apply splitext_ext_not_h5 in E|].
  reflexivity.
Qed.

(** C9: when the extension of [payload_file] is neither [".xml"] nor
    ["h5"], [PreparePayload] logs one error, raises the IOError
    "Unsupported payload format", and has run no child task: nothing else
    is in its trace. *)
Theorem PreparePayload_rejects_other_extensions
    (payload_file : string) (output : option string) :
  (splitext payload_file).2 ≠ ".xml" ->
  (splitext payload_file).2 ≠ "h5" ->
  trace (PreparePayload_execute payload_file output)
    = [Log ERROR "Unsupported payload format"]
  ∧ result (PreparePayload_execute payload_file output)
    = Raise (IOError "Unsupported payload format")
  ∧ List.existsb is_Run (trace (PreparePayload_execute payload_file output))
    = false.
Proof.
  intros Hx _. rewrite (PreparePayload_not_xml _ _ Hx). now repeat split.
Qed.

(** C1: for every path that ends in ["h5"] (["payload.h5"], say) the
    extension [os.path.splitext] yields is not ["h5"], so [execute] does
    not reach [LoadPayload]: it logs the error and raises the IOError
    "Unsupported payload format". *)
Theorem PreparePayload_h5_path_unsupported
    (payload_file : string) (output : option string) :
  endswith "h5" payload_file = true ->
  PreparePayload_execute payload_file output
    = ([Log ERROR "Unsupported payload format"],
       Raise (IOError "Unsupported payload format"))
  ∧ List.existsb is_Run (trace (PreparePayload_execute payload_file output))
    = false.
Proof.
  intros E%h5_suffix_not_xml.
  rewrite (PreparePayload_not_xml _ _ E). now split.
Qed.

End PreparePayloadFacts.

Lemma PreparePayload_rejects_other_extensions_witness :
  trace (@PreparePayload_execute Examples.collaborators "payload.csv" None)
    = [Log ERROR "Unsupported payload format"]
  ∧ result (@PreparePayload_execute Examples.collaborators "payload.csv" None)
    = Raise (IOError "Unsupported payload format")
  ∧ List.existsb is_Run
      (trace (@PreparePayload_execute Examples.collaborators "payload.csv" None))
    = false.
Proof.
  apply (@PreparePayload_rejects_other_extensions Examples.collaborators
           "payload.csv" None); vm_compute; discriminate.
Defined.

Lemma PreparePayload_h5_path_unsupported_witness :
  @PreparePayload_execute Examples.collaborators "payload.h5" (Some "out.h5")
    = ([Log ERROR "Unsupported payload format"],
       Raise (IOError "Unsupported payload format"))
  ∧ List.existsb is_Run
      (trace (@PreparePayload_execute Examples.collaborators "payload.h5"
                (Some "out.h5")))
    = false.
Proof.
  apply (@PreparePayload_h5_path_unsupported Examples.collaborators
           "payload.h5" (Some "out.h5")); vm_compute; reflexivity.
Defined.

(** ** The laws of [M] *)

Lemma bind_ret_l {A B} (a : A) (k : A -> M B) : (ret a ≫= k) = k a.
Proof. unfold mbind, M_bind, bind, ret. now destruct (k a). Qed.

Lemma bind_raise {A B} (e : exn) (k : A -> M B) : (raise e ≫= k) = raise e.
Proof. reflexivity. Qed.

Lemma bind_emit {B} (ev : event) (k : unit -> M B) :
  (emit ev ≫= k) = (ev :: (k tt).1, (k tt).2).
Proof. unfold mbind, M_bind, bind, emit. now destruct (k tt). Qed.

Lemma bind_ret_r {A} (m : M A) : (m ≫= ret) = m.
Proof.
  destruct m as [t [a|e]]; unfold mbind, M_bind, bind, ret; simpl;
    [now rewrite app_nil_r | reflexivity].
Qed.

Lemma bind_assoc {A B C} (m : M A) (k : A -> M B) (h : B -> M C) :
  ((m ≫= k) ≫= h) = (m ≫= fun a => k a ≫= h).
Proof.
  destruct m as [t [a|e]]; unfold mbind, M_bind, bind; simpl; [|reflexivity].
  destruct (k a) as [t' [b|e]]; simpl; [|reflexivity].
  destruct (h b) as [t'' r]. now rewrite app_assoc.
Qed.

(** A run that returned, followed by more. *)
Lemma bind_return {A B} (t : list event) (a : A) (k : A -> M B) :
  ((t, Return a) ≫= k) = ((t ++ (k a).1)%list, (k a).2).
Proof. unfold mbind, M_bind, bind. now destruct (k a). Qed.

Lemma bind_raised {A B} (t : list event) (e : exn) (k : A -> M B) :
  ((t, Raise e) ≫= k) = (t, Raise e).
Proof. reflexivity. Qed.

Lemma try_except_ret {A} (a : A) (catches : exn -> bool) (h : M A) :
  try_except (ret a) catches h = ret a.
Proof. reflexivity. Qed.

(** ** [BuildInstrument]: the registry of instrument classes *)

(** The registry has exactly the two lower-case keys. *)
Lemma instruments_lookup (type : string) :
  instruments !! type =
    if decide (type = "photometer") then Some Photometer
    else if decide (type = "spectrometer") then Some Spectrometer
    else None.
Proof.
  unfold instruments.
  repeat (rewrite lookup_insert; case_decide; subst; simpl).
  all: repeat case_decide; try congruence; try reflexivity.
Qed.

Lemma getitem_found (items : list (string * tree)) (k : string) (v : tree) :
  assoc k items = Some v -> getitem (Dict items) k = ret v.
Proof. intros E. unfold getitem. now rewrite E. Qed.

Section BuildInstrumentFacts.
Context `{Collaborators}.

(** What [execute] does once the class [c] is resolved. *)
Lemma BuildInstrument_known
    (type name : string) (description payload : tree)
    (write_param : bool) (output : option Store) (c : instrument_class) :
  instruments !! type = Some c ->
  BuildInstrument_execute type name description payload write_param output
  = (emit (New (class_name c) name);;
     instrument ← construct c name description payload;
     instrument ← build instrument;
     (if write_param then write instrument output else ret tt);;
     ret instrument).
Proof.
  intros E. unfold BuildInstrument_execute. rewrite E.
  now rewrite try_except_ret, bind_ret_l.
Qed.

Lemma BuildInstrument_unknown
    (type name : string) (description payload : tree)
    (write_param : bool) (output : option Store) :
  instruments !! type = None ->
  BuildInstrument_execute type name description payload write_param output
  = ([Log ERROR "invalid instrument class"], Raise ValueError).
Proof.
  intros E. unfold BuildInstrument_execute. now rewrite E.
Qed.

(** C6, amended: [BuildInstrument] looks the type tag up as it is given, in
    the registry with the two keys ["photometer"] and ["spectrometer"]; a
    tag equal to one of them starts the construction of that class, and for
    every other tag the call logs the error "invalid instrument class",
    raises [ValueError], and constructs nothing. *)
Theorem BuildInstrument_resolves_exact_tag
    (type name : string) (description payload : tree)
    (write_param : bool) (output : option Store) :
  let run :=
    BuildInstrument_execute type name description payload write_param output in
  let start (c : instrument_class) :=
    emit (New (class_name c) name);;
    instrument ← construct c name description payload;
    instrument ← build instrument;
    (if write_param then write instrument output else ret tt);;
    ret instrument in
  (type = "photometer" -> run = start Photometer)
  ∧ (type = "spectrometer" -> run = start Spectrometer)
  ∧ (type ≠ "photometer" -> type ≠ "spectrometer" ->
     run = ([Log ERROR "invalid instrument class"], Raise ValueError)
     ∧ List.existsb is_New (trace run) = false).
Proof.
  intros run start. subst run start. repeat split.
  - intros ->. now apply BuildInstrument_known.
  - intros ->. now apply BuildInstrument_known.
  - rewrite BuildInstrument_unknown; [reflexivity|].
    rewrite instruments_lookup. now repeat case_decide.
  - rewrite BuildInstrument_unknown; [reflexivity|].
    rewrite instruments_lookup. now repeat case_decide.
Qed.

(** [BuildChannels] is where the case of the tag is dropped: it hands
    [BuildInstrument] the lower-cased [channelClass] value. *)
Lemma BuildChannels_step_lowers
    (items : list (string * tree)) (payload descr cc : tree)
    (det v : string) (write_param : bool) (ch : option Store)
    (channels : list (string * Instrument)) :
  getitem payload "channel" = ret (Dict items) ->
  assoc det items = Some descr ->
  getitem descr "channelClass" = ret cc ->
  getitem cc "value" = ret (Str v) ->
  BuildChannels_step payload write_param ch channels det
  = (instrument ←
       call "BuildInstrument"
         (BuildInstrument_execute (lower v) det descr payload false None);
     (if write_param then write instrument ch else ret tt);;
     ret (dict_set det instrument channels)).
Proof.
  intros E1 E2 E3 E4. unfold BuildChannels_step.
  rewrite E1, bind_ret_l, (getitem_found _ _ _ E2), bind_ret_l.
  rewrite E3, bind_ret_l, E4, bind_ret_l. unfold str_lower.
  now rewrite bind_ret_l.
Qed.

End BuildInstrumentFacts.

(** C6, as stated, fails: the tag ["Photometer"] names a class of the
    registry up to case, yet [BuildInstrument] rejects it. *)
Lemma BuildInstrument_Photometer_rejected :
  instruments !! lower "Photometer" = Some Photometer
  ∧ @BuildInstrument_execute Examples.collaborators
      "Photometer" "Phot" (Dict []) (Dict []) false None
    = ([Log ERROR "invalid instrument class"], Raise ValueError).
Proof. split; reflexivity. Qed.

Lemma BuildInstrument_resolves_exact_tag_witness :
  @BuildInstrument_execute Examples.collaborators
    "photometer" "Phot" (Dict []) (Dict []) false None
  = ([New "Photometer" "Phot"], Return ("Photometer", "Phot"))
  ∧ @BuildInstrument_execute Examples.collaborators
      "bolometer" "Bolo" (Dict []) (Dict []) false None
    = ([Log ERROR "invalid instrument class"], Raise ValueError).
Proof.
  pose proof (@BuildInstrument_resolves_exact_tag Examples.collaborators
                "photometer" "Phot" (Dict []) (Dict []) false None) as (P & _ & _).
  pose proof (@BuildInstrument_resolves_exact_tag Examples.collaborators
                "bolometer" "Bolo" (Dict []) (Dict []) false None) as (_ & _ & U).
  split.
  - rewrite (P eq_refl). reflexivity.
  - apply U; discriminate.
Defined.

(** ** [Target]: construction and [update_target] *)

Section TargetFacts.
Context `{Runtime}.

(** C10: [Target.__init__] binds its eight names as locals.  Provided the
    [Logger] mix-in neither binds nor defines any of them, a fresh [Target]
    has none of [star], [planet], [name], [id], [luminosity], [sed],
    [model], [table] in its [__dict__], and reading any of them raises
    [AttributeError]. *)
Theorem Target_init_binds_no_attribute (attr : string) :
  attr ∈ init_locals ->
  set_log_name !! attr = None ->
  attr ∉ Logger_members ->
  (∃ d, Target_init = VObj Target_class d ∧ d !! attr = None)
  ∧ getattr Target_init attr = raise (AttributeError attr).
Proof.
  intros Hin Hlog Hmem. split.
  - exists set_log_name. now split.
  - unfold Target_init, getattr. rewrite Hlog.
    rewrite bool_decide_eq_false_2; [reflexivity|].
    unfold Target_class; simpl. intros Hm.
    unfold init_locals in Hin.
    repeat (apply elem_of_cons in Hin as [-> | Hin];
            [repeat (apply elem_of_cons in Hm as [Hm | Hm]; [discriminate|]);
             contradiction|]).
    now apply elem_of_nil in Hin.
Qed.

(** C2: for every object that is neither a [Star] nor a [CustomSed],
    [update_target] leaves the target as it was, but it does not get to
    log its warning: building the message applies the format [{:s}] to
    the type of the object, which raises [TypeError]. *)
Theorem update_target_unsupported_raises (self obj : value) :
  isinstance obj "Star" = false ->
  isinstance obj "CustomSed" = false ->
  update_target self obj = (self, ([], Raise TypeError)).
Proof.
  intros HS HC. unfold update_target. now rewrite HS, HC.
Qed.

End TargetFacts.

Lemma Target_init_binds_no_attribute_witness :
  (∃ d, @Target_init _ Examples.runtime = VObj (@Target_class _ Examples.runtime) d
        ∧ d !! "planet" = None)
  ∧ @getattr Examples.astropy (@Target_init _ Examples.runtime) "planet"
    = raise (AttributeError "planet").
Proof.
  apply (@Target_init_binds_no_attribute _ Examples.runtime "planet").
  - apply list_elem_of_In. simpl. tauto.
  - reflexivity.
  - intros Hm%list_elem_of_In. simpl in Hm. intuition discriminate.
Defined.

Lemma update_target_unsupported_raises_witness :
  @update_target Examples.astropy (@Target_init _ Examples.runtime) (VInt 5)
  = (@Target_init _ Examples.runtime, ([], Raise TypeError)).
Proof.
  apply (@update_target_unsupported_raises Examples.astropy); reflexivity.
Defined.

(** ** Unit annotations *)

Section UnitFacts.
Context `{Runtime}.

(** The spreadsheet reader never fails on a unit cell: an empty cell gives
    [1] silently, an unreadable one gives [1] after a warning. *)
Lemma column_dim_lenient (str_unit : string) :
  (str_unit = "" -> column_dim str_unit = ret One)
  ∧ (str_unit ≠ "" -> Unit (stripUnitString str_unit) = None ->
     column_dim str_unit
     = ([UnitCall (stripUnitString str_unit);
         Log WARNING "Unrecognised physical units"], Return One))
  ∧ (∀ u, str_unit ≠ "" -> Unit (stripUnitString str_unit) = Some u ->
     column_dim str_unit
     = ([UnitCall (stripUnitString str_unit)], Return (Dim u))).
Proof.
  repeat split.
  - now intros ->.
  - intros Hne Hu. destruct str_unit; [contradiction|].
    unfold column_dim, parse_unit. simpl. now rewrite Hu.
  - intros u Hne Hu. destruct str_unit; [contradiction|].
    unfold column_dim, parse_unit. simpl. now rewrite Hu.
Qed.

(** C3: in the delimited-text reader a star header whose unit [u.Unit]
    cannot read ends the ingestion: [star_data] calls the parser outside
    any [try], so [create_target_list] raises [ValueError] and no warning
    is logged. *)
Theorem CSV_unreadable_star_unit_raises (names teffs : list cell) :
  Unit "foo" = None ->
  @create_target_list _ _
    (CSVTargetList [("star name", names); ("star Teff [foo]", teffs)])
  = ([UnitCall "foo"], Raise ValueError).
Proof.
  intros Hu. vm_compute in Hu |- *. now rewrite Hu.
Qed.

(** The same header in the planet section is swallowed by the bare
    [except]: the planet data is dropped without a warning. *)
Lemma CSV_unreadable_planet_unit_dropped (names radii : list cell) :
  Unit "foo" = None ->
  @request_planets _
    (CSVTargetList [("planet name", names); ("planet Radius [foo]", radii)])
  = ([UnitCall "foo"], Return (Some ["name"; "Radius"], None)).
Proof.
  intros Hu. vm_compute in Hu |- *. now rewrite Hu.
Qed.

End UnitFacts.

Lemma CSV_unreadable_star_unit_raises_witness :
  @create_target_list _ Examples.runtime
    (@CSVTargetList Examples.astropy
       [("star name", [Text "Sun"]); ("star Teff [foo]", [Number (5772 : @num Examples.astropy)])])
  = ([UnitCall "foo"], Raise ValueError).
Proof.
  apply (@CSV_unreadable_star_unit_raises _ Examples.runtime). reflexivity.
Defined.

(** ** Loops in [M] *)

Lemma result_bind_return {A B} (t : list event) (a : A) (m : M A) (k : A -> M B) :
  m = (t, Return a) -> result (m ≫= k) = result (k a).
Proof. intros ->. rewrite bind_return. reflexivity. Qed.

Lemma result_bind_inv {A B} (m : M A) (k : A -> M B) (b : B) :
  result (m ≫= k) = Return b ->
  ∃ a, result m = Return a ∧ result (k a) = Return b.
Proof.
  destruct m as [t [a|e]]; [|discriminate].
  rewrite bind_return. intros E. now exists a.
Qed.

(** A loop that returned ran its body to a return on every element. *)
Lemma mapM_result_inv {A B} (f : A -> M B) (l : list A) (ys : list B) :
  result (mapM f l) = Return ys ->
  Forall2 (fun x y => result (f x) = Return y) l ys.
Proof.
  revert ys; induction l as [|x l IH]; intros ys; simpl.
  - intros [= <-]. constructor.
  - change (bind (f x) ?k) with (f x ≫= k).
    intros (y & Ey & E)%result_bind_inv.
    change (bind (mapM f l) ?k) with (mapM f l ≫= k) in E.
    apply result_bind_inv in E as (ys' & Eys & [= <-]).
    constructor; auto.
Qed.

(** A loop whose body returns on every element returns. *)
Lemma mapM_result_total {A B} (f : A -> M B) (l : list A) :
  Forall (fun x => ∃ y, result (f x) = Return y) l ->
  ∃ ys, result (mapM f l) = Return ys.
Proof.
  induction 1 as [|x l [y Ey] _ [ys Eys]]; simpl; [now exists []|].
  exists (y :: ys).
  destruct (f x) as [t [y'|e]]; [|discriminate]. injection Ey as ->.
  destruct (mapM f l) as [t' [ys'|e]]; [|discriminate]. injection Eys as ->.
  reflexivity.
Qed.

Lemma enumerate_lookup {A} (l : list A) (i j : nat) (x : A) :
  enumerate l !! i = Some (j, x) -> j = i ∧ l !! i = Some x.
Proof.
  unfold enumerate. intros E.
  apply lookup_zip_with_Some in E as (j' & x' & [= <- <-] & Ej & Ex).
  split; [|exact Ex].
  apply lookup_seq in Ej as [-> _]. reflexivity.
Qed.

Lemma enumerate_length {A} (l : list A) : length (enumerate l) = length l.
Proof.
  unfold enumerate. rewrite length_zip_with, length_seq. lia.
Qed.

(** ** [create_target_list] *)

Section AssemblerFacts.
Context `{Runtime}.

Lemma getattr_trace (o : value) (name : string) : trace (getattr o name) = [].
Proof.
  destruct o; try reflexivity. simpl.
  destruct (d !! name); [reflexivity|]. now destruct (bool_decide _).
Qed.

Lemma getattr_returns (o : value) (name : string) (v : value) :
  result (getattr o name) = Return v -> getattr o name = ret v.
Proof.
  intros E. pose proof (getattr_trace o name) as T.
  destruct (getattr o name) as [t r]. simpl in *. now subst.
Qed.

Lemma getattr_found (c : pyclass) (d : gmap string value) (name : string)
    (v : value) :
  d !! name = Some v -> getattr (VObj c d) name = ret v.
Proof. intros E. unfold getattr. now rewrite E. Qed.

(** One round of the star-only loop, in closed form. *)
Lemma target_star_only_eq (star_keys : list string) (i : nat) (star : list value) :
  target_star_only star_keys (i, star)
  = (name ← getattr (sub_record star_keys star) "name";
     ret (VObj Target_class
            (<["name" := name]>
               (<["star" := sub_record star_keys star]>
                  (<["id" := VInt (Z.of_nat i)]>
                     (<["star" := Target_init]> set_log_name)))))).
Proof.
  unfold target_star_only, Target_init, setattr, dict_update.
  rewrite !bind_ret_l.
  erewrite getattr_found
    by (rewrite lookup_insert_ne by discriminate; apply lookup_insert_eq).
  rewrite !bind_ret_l.
  erewrite getattr_found by apply lookup_insert_eq.
  rewrite bind_ret_l. fold (sub_record star_keys star).
  reflexivity.
Qed.

(** One round of the loop over stars and planets, in closed form. *)
Lemma target_with_planet_eq (star_keys planet_keys : list string)
    (i : nat) (star planet : list value) :
  target_with_planet star_keys planet_keys (i, (star, planet))
  = (name ← getattr (sub_record planet_keys planet) "name";
     ret (VObj Target_class
            (<["id" := VInt (Z.of_nat i)]>
               (<["name" := name]>
                  (<["star" := sub_record star_keys star]>
                     (<["planet" := sub_record planet_keys planet]>
                        (<["star" := Target_init]>
                           (<["planet" := Target_init]> set_log_name)))))))).
Proof.
  unfold target_with_planet, Target_init, setattr, dict_update.
  rewrite !bind_ret_l.
  erewrite getattr_found
    by (rewrite lookup_insert_ne by discriminate; apply lookup_insert_eq).
  rewrite !bind_ret_l.
  erewrite getattr_found
    by (rewrite lookup_insert_ne by discriminate; apply lookup_insert_eq).
  rewrite !bind_ret_l.
  erewrite getattr_found
    by (rewrite lookup_insert_ne by discriminate; apply lookup_insert_eq).
  rewrite bind_ret_l.
  fold (sub_record star_keys star). fold (sub_record planet_keys planet).
  destruct (getattr (sub_record planet_keys planet) "name") as [t [v|e]];
    [|reflexivity].
  rewrite !bind_return. reflexivity.
Qed.

(** What [create_target_list] loops over, once the three reads are done. *)
Lemma create_target_list_result {src : TargetList}
    (t1 t2 : list event) (keys : list string) (rows : list (list value)) :
  star_keys = (t1, Return keys) ->
  star_data = (t2, Return rows) ->
  result create_target_list
  = match result request_planets with
    | Return (Some planet_keys, Some ((_ :: _) as planet_data)) =>
        result (mapM (target_with_planet keys planet_keys)
                     (enumerate (zip rows planet_data)))
    | _ => result (mapM (target_star_only keys) (enumerate rows))
    end.
Proof.
  intros E1 E2. unfold create_target_list.
  rewrite (result_bind_return _ _ _ _ E1), (result_bind_return _ _ _ _ E2).
  assert (∃ t pk pd, request_planets = (t, Return (pk, pd))) as (t & pk & pd & E).
  { unfold request_planets. destruct planet_keys as [t [pk|e]]; [|eauto].
    destruct planet_data as [t' [pd|e]]; eauto. }
  rewrite (result_bind_return _ _ _ _ E), E. simpl.
  destruct pk as [pk|]; [|reflexivity]. destruct pd as [[|r pd]|]; reflexivity.
Qed.

(** The attributes of a target that a round of either loop returned. *)
Lemma target_star_only_attrs (keys : list string) (i : nat)
    (star : list value) (target : value) :
  result (target_star_only keys (i, star)) = Return target ->
  getattr target "id" = ret (VInt (Z.of_nat i))
  ∧ getattr target "star" = ret (sub_record keys star)
  ∧ (∃ name, getattr target "name" = ret name
             ∧ getattr (sub_record keys star) "name" = ret name)
  ∧ ∃ d, target = VObj Target_class d ∧ d !! "planet" = set_log_name !! "planet".
Proof.
  rewrite target_star_only_eq.
  intros (name & En%getattr_returns & [= <-])%result_bind_inv.
  repeat split.
  - apply getattr_found.
    rewrite !lookup_insert_ne by discriminate. apply lookup_insert_eq.
  - apply getattr_found.
    rewrite !lookup_insert_ne by discriminate. apply lookup_insert_eq.
  - exists name. split; [|exact En]. apply getattr_found, lookup_insert_eq.
  - eexists. split; [reflexivity|]. now rewrite !lookup_insert_ne by discriminate.
Qed.

Lemma target_with_planet_attrs (keys pkeys : list string) (i : nat)
    (star planet : list value) (target : value) :
  result (target_with_planet keys pkeys (i, (star, planet))) = Return target ->
  getattr target "id" = ret (VInt (Z.of_nat i))
  ∧ getattr target "star" = ret (sub_record keys star)
  ∧ getattr target "planet" = ret (sub_record pkeys planet)
  ∧ ∃ name, getattr target "name" = ret name
            ∧ getattr (sub_record pkeys planet) "name" = ret name.
Proof.
  rewrite target_with_planet_eq.
  intros (name & En%getattr_returns & [= <-])%result_bind_inv.
  repeat split.
  - apply getattr_found, lookup_insert_eq.
  - apply getattr_found.
    rewrite !lookup_insert_ne by discriminate. apply lookup_insert_eq.
  - apply getattr_found.
    rewrite !lookup_insert_ne by discriminate. apply lookup_insert_eq.
  - exists name. split; [|exact En]. apply getattr_found.
    rewrite lookup_insert_ne by discriminate. apply lookup_insert_eq.
Qed.

(** With a planet section whose rows all bring a [name], the assembly
    returns. *)
Lemma create_target_list_returns_with_planets {src : TargetList}
    (t1 t2 t3 t4 : list event) (keys pkeys : list string)
    (rows prows : list (list value)) :
  star_keys = (t1, Return keys) ->
  star_data = (t2, Return rows) ->
  planet_keys = (t3, Return pkeys) ->
  planet_data = (t4, Return prows) ->
  prows ≠ [] ->
  Forall (fun planet => is_Some (dict_zip pkeys planet !! "name")) prows ->
  ∃ tl, result create_target_list = Return tl.
Proof.
  intros E1 E2 E3 E4 Hne Hnames.
  rewrite (create_target_list_result _ _ _ _ E1 E2).
  unfold request_planets. rewrite E3, E4. simpl.
  destruct prows as [|r pd]; [contradiction|].
  apply mapM_result_total, Forall_forall. intros [j [star planet]] Hin.
  apply list_elem_of_lookup in Hin as [i Hx].
  apply enumerate_lookup in Hx as [-> Hx].
  apply lookup_zip_with_Some in Hx as (s' & p' & [= <- <-] & _ & Hp).
  rewrite Forall_forall in Hnames.
  destruct (Hnames planet) as [v Ev]; [eapply list_elem_of_lookup_2; eauto|].
  rewrite target_with_planet_eq. unfold sub_record.
  erewrite (getattr_found _ _ _ v), bind_ret_l; [eauto|].
  now apply lookup_union_Some_l.
Qed.

(** C7: in every assembled target list the target at position [i] is
    built from row [i] of the star data, and its [id] is [i].  When the
    planet section gave rows, it is paired with row [i] of the planet data,
    its [name] is the [name] of that planet sub-record, and the list is as
    long as the shorter of the two sections; otherwise its [name] is the
    [name] of its star sub-record and the list has one target per star
    row. *)
Theorem create_target_list_names_and_ids {src : TargetList} (tl : list value) :
  result create_target_list = Return tl ->
  ∃ keys rows,
    result star_keys = Return keys
    ∧ result star_data = Return rows
    ∧ (∀ pkeys prows,
         result planet_keys = Return pkeys ->
         result planet_data = Return prows ->
         prows ≠ [] ->
         length tl = min (length rows) (length prows)
         ∧ ∀ i target, tl !! i = Some target ->
             ∃ star planet name,
               rows !! i = Some star
               ∧ prows !! i = Some planet
               ∧ getattr target "id" = ret (VInt (Z.of_nat i))
               ∧ getattr target "star" = ret (sub_record keys star)
               ∧ getattr target "planet" = ret (sub_record pkeys planet)
               ∧ getattr (sub_record pkeys planet) "name" = ret name
               ∧ getattr target "name" = ret name)
    ∧ ((∃ e, result planet_keys = Raise e)
       ∨ (∃ e, result planet_data = Raise e)
       ∨ result planet_data = Return [] ->
       length tl = length rows
       ∧ ∀ i target, tl !! i = Some target ->
           ∃ star name,
             rows !! i = Some star
             ∧ getattr target "id" = ret (VInt (Z.of_nat i))
             ∧ getattr target "star" = ret (sub_record keys star)
             ∧ getattr (sub_record keys star) "name" = ret name
             ∧ getattr target "name" = ret name).
Proof.
  intros Etl.
  pose proof Etl as (keys & Ek & Etl')%result_bind_inv.
  apply result_bind_inv in Etl' as (rows & Er & _).
  exists keys, rows. split; [exact Ek|]. split; [exact Er|].
  destruct star_keys as [t1 r1] eqn:E1. simpl in Ek. subst r1.
  destruct star_data as [t2 r2] eqn:E2. simpl in Er. subst r2.
  rewrite (create_target_list_result _ _ _ _ E1 E2) in Etl.
  unfold request_planets in Etl. split.
  - intros pkeys prows Epk Epd Hne.
    destruct planet_keys as [t3 r3]. simpl in Epk. subst r3.
    destruct planet_data as [t4 r4]. simpl in Epd. subst r4.
    destruct prows as [|r pd]; [contradiction|]. simpl in Etl.
    apply mapM_result_inv in Etl. split.
    + rewrite <- (Forall2_length _ _ _ Etl), enumerate_length.
      apply length_zip_with.
    + intros i target Hi.
      destruct (Forall2_lookup_r _ _ _ _ _ Etl Hi)
        as ([j [star planet]] & Hx & Ex).
      apply enumerate_lookup in Hx as [-> Hx].
      apply lookup_zip_with_Some in Hx as (s' & p' & [= <- <-] & Hs & Hp).
      apply target_with_planet_attrs in Ex as (Eid & Es & Ep & name & En & Epn).
      exists star, planet, name. auto 10.
  - intros Habsent.
    assert (result (mapM (target_star_only keys) (enumerate rows)) = Return tl)
      as Etl'.
    { destruct planet_keys as [t3 [pk|e]]; [|exact Etl].
      destruct planet_data as [t4 [[|r pd]|e]]; try exact Etl.
      simpl in Habsent. destruct Habsent as [[e [=]] | [[e [=]] | [=]]]. }
    clear Etl. apply mapM_result_inv in Etl'. split.
    + rewrite <- (Forall2_length _ _ _ Etl'). apply enumerate_length.
    + intros i target Hi.
      destruct (Forall2_lookup_r _ _ _ _ _ Etl' Hi) as ([j star] & Hx & Ex).
      apply enumerate_lookup in Hx as [-> Hx].
      apply target_star_only_attrs in Ex as (Eid & Es & (name & En & Esn) & _).
      exists star, name. auto 10.
Qed.

(** C5: when the request for the planet section fails or returns no rows,
    and the star section is read and gives every row a [name],
    [create_target_list] returns one target per star row; each has the
    [name] of its star sub-record and (the [Logger] mix-in binding or
    defining no [planet]) no [planet] attribute. *)
Theorem create_target_list_star_only {src : TargetList}
    (t1 t2 : list event) (keys : list string) (rows : list (list value)) :
  star_keys = (t1, Return keys) ->
  star_data = (t2, Return rows) ->
  ((∃ e, result planet_keys = Raise e)
   ∨ (∃ e, result planet_data = Raise e)
   ∨ result planet_data = Return []) ->
  Forall (fun row => is_Some (dict_zip keys row !! "name")) rows ->
  set_log_name !! "planet" = None ->
  "planet" ∉ Logger_members ->
  ∃ tl,
    result create_target_list = Return tl
    ∧ length tl = length rows
    ∧ ∀ i target, tl !! i = Some target ->
        getattr target "planet" = raise (AttributeError "planet")
        ∧ ∃ name,
            getattr target "name" = ret name
            ∧ (star ← getattr target "star"; getattr star "name") = ret name.
Proof.
  intros E1 E2 Habsent Hnames Hlog Hmem.
  rewrite (create_target_list_result _ _ _ _ E1 E2).
  assert (result (mapM (target_star_only keys) (enumerate rows))
          = match result request_planets with
            | Return (Some planet_keys, Some ((_ :: _) as planet_data)) =>
                result (mapM (target_with_planet keys planet_keys)
                             (enumerate (zip rows planet_data)))
            | _ => result (mapM (target_star_only keys) (enumerate rows))
            end) as <-.
  { unfold request_planets.
    destruct planet_keys as [t [pk|e]]; [|reflexivity].
    destruct planet_data as [t' [[|r pd]|e]]; try reflexivity.
    simpl in Habsent. destruct Habsent as [[e [=]] | [[e [=]] | [=]]]. }
  destruct (mapM_result_total (target_star_only keys) (enumerate rows))
    as [tl Etl].
  { apply Forall_forall. intros [j star] Hin.
    apply list_elem_of_lookup in Hin as [i Hx].
    apply enumerate_lookup in Hx as [-> Hx].
    rewrite Forall_forall in Hnames.
    destruct (Hnames star) as [v Ev]; [eapply list_elem_of_lookup_2; eauto|].
    rewrite target_star_only_eq. unfold sub_record.
    erewrite (getattr_found _ _ _ v), bind_ret_l; [eauto|].
    now apply lookup_union_Some_l. }
  exists tl. split; [exact Etl|].
  apply mapM_result_inv in Etl. split.
  - rewrite <- (Forall2_length _ _ _ Etl). apply enumerate_length.
  - intros i target Hi.
    destruct (Forall2_lookup_r _ _ _ _ _ Etl Hi) as ([j x] & Hx & Ex).
    apply target_star_only_attrs in Ex
      as (_ & Es & (name & En & Esn) & d & -> & Ed).
    split.
    + unfold getattr. rewrite Ed, Hlog.
      rewrite bool_decide_eq_false_2; [reflexivity|].
      intros Hm%list_elem_of_In. simpl in Hm.
      destruct Hm as [?|[?|[?|[?|Hm]]]]; try discriminate.
      now apply Hmem, list_elem_of_In.
    + exists name. split; [exact En|]. now rewrite Es, bind_ret_l.
Qed.

End AssemblerFacts.

(** A delimited-text file without a planet header has an empty planet
    section. *)
Lemma csv_no_planet_header `{Astropy} (tab : list (string * list cell)) :
  Forall (fun k => contains "planet" k = false) (table_keys tab) ->
  csv_keys "planet" tab = ret [] ∧ csv_data "planet" tab = ret [].
Proof.
  intros Hk. unfold csv_keys, csv_data.
  assert (List.filter (contains "planet") (table_keys tab) = []) as ->; [|now split].
  induction Hk as [|k ks Hk _ IH]; simpl; [reflexivity|]. now rewrite Hk.
Qed.

Lemma create_target_list_names_and_ids_witness :
  ∃ tl keys rows,
    result (@create_target_list _ Examples.runtime
              (CSVTargetList Examples.with_planet)) = Return tl
    ∧ result (@star_keys _ (CSVTargetList Examples.with_planet)) = Return keys
    ∧ result (@star_data _ (CSVTargetList Examples.with_planet)) = Return rows
    ∧ length tl = min (length rows) 1
    ∧ ∀ i target, tl !! i = Some target ->
        ∃ star planet name,
          rows !! i = Some star
          ∧ [[VStr "HD 209458 b"; @VQty Examples.astropy 1 "Rjup"]] !! i
            = Some planet
          ∧ getattr target "id" = ret (VInt (Z.of_nat i))
          ∧ getattr target "star" = ret (@sub_record _ Examples.runtime keys star)
          ∧ getattr target "planet"
            = ret (@sub_record _ Examples.runtime ["name"; "Radius"] planet)
          ∧ getattr (@sub_record _ Examples.runtime ["name"; "Radius"] planet)
              "name" = ret name
          ∧ getattr target "name" = ret name.
Proof.
  destruct (@create_target_list_returns_with_planets _ Examples.runtime
              (CSVTargetList Examples.with_planet)
              [] [UnitCall "K"] [] [UnitCall "Rjup"]
              ["name"; "Teff"] ["name"; "Radius"]
              [[VStr "HD 209458"; @VQty Examples.astropy 6000 "K"]]
              [[VStr "HD 209458 b"; @VQty Examples.astropy 1 "Rjup"]]
              eq_refl eq_refl eq_refl eq_refl)
    as [tl Etl];
    [discriminate | repeat constructor; eexists; reflexivity |].
  destruct (@create_target_list_names_and_ids _ Examples.runtime
              (CSVTargetList Examples.with_planet) tl Etl)
    as (keys & rows & Ek & Er & Hplanets & _).
  exists tl, keys, rows. split; [exact Etl|]. split; [exact Ek|].
  split; [exact Er|].
  apply (Hplanets ["name"; "Radius"]
           [[VStr "HD 209458 b"; @VQty Examples.astropy 1 "Rjup"]]).
  - vm_compute. reflexivity.
  - vm_compute. reflexivity.
  - discriminate.
Defined.

Lemma create_target_list_star_only_witness :
  ∃ tl,
    result (@create_target_list _ Examples.runtime
              (CSVTargetList Examples.stars_only)) = Return tl
    ∧ length tl = 2%nat
    ∧ ∀ i target, tl !! i = Some target ->
        getattr target "planet" = raise (AttributeError "planet")
        ∧ ∃ name,
            getattr target "name" = ret name
            ∧ (star ← getattr target "star"; getattr star "name") = ret name.
Proof.
  apply (@create_target_list_star_only _ Examples.runtime
           (CSVTargetList Examples.stars_only)
           [] [UnitCall "K"] ["name"; "Teff"]
           [[VStr "HD 209458"; @VQty Examples.astropy 6000 "K"];
            [VStr "Sun"; @VQty Examples.astropy 5772 "K"]]).
  - reflexivity.
  - reflexivity.
  - right; right. reflexivity.
  - repeat constructor; eexists; reflexivity.
  - reflexivity.
  - intros Hm%list_elem_of_In. simpl in Hm. intuition discriminate.
Defined.

(** ** [searchTarget] *)

Section SearchFacts.
Context `{Runtime}.

Lemma compact_name_of (target o v : value) (part : string) :
  getattr target part = ret o ->
  getattr o "name" = ret v ->
  compact_name target part = compactString (py_str v).
Proof.
  intros Eo Ev. unfold compact_name. now rewrite Eo, bind_ret_l, Ev.
Qed.

(** On a target with both names and a pattern [re] accepts, the test of
    the loop is the search criterion. *)
Lemma search_hit_matches (name : string) (target s p sn pn : value) :
  (∀ text, ∃ b, re_search (compactString name) text = Return b) ->
  getattr target "star" = ret s ->
  getattr s "name" = ret sn ->
  getattr target "planet" = ret p ->
  getattr p "name" = ret pn ->
  search_hit (compactString name) target = ret (name_matches name target).
Proof.
  intros Hre Es Esn Ep Epn. unfold name_matches, found.
  rewrite (compact_name_of _ _ _ _ Es Esn), (compact_name_of _ _ _ _ Ep Epn).
  unfold search_hit. rewrite Es, bind_ret_l, Esn, bind_ret_l.
  destruct (Hre (compactString (py_str sn))) as [b1 ->].
  destruct (Hre (compactString (py_str pn))) as [b2 E2].
  change (@pair (list event) (outcome bool) [] (Return b1)) with (ret b1).
  rewrite bind_ret_l. destruct b1; [reflexivity|].
  now rewrite Ep, bind_ret_l, Epn, bind_ret_l, E2.
Qed.

Lemma search_loop_filter (name : string) (targets returnList : list value) :
  (∀ text, ∃ b, re_search (compactString name) text = Return b) ->
  Forall (fun target =>
            ∃ s p sn pn,
              getattr target "star" = ret s ∧ getattr s "name" = ret sn
              ∧ getattr target "planet" = ret p ∧ getattr p "name" = ret pn)
         targets ->
  search_loop (compactString name) targets returnList
  = ret (returnList ++ List.filter (name_matches name) targets)%list.
Proof.
  intros Hre Hall. revert returnList.
  induction Hall as [|target targets (s & p & sn & pn & Es & Esn & Ep & Epn) _ IH];
    intros returnList; simpl.
  - now rewrite app_nil_r.
  - rewrite (search_hit_matches _ _ _ _ _ _ Hre Es Esn Ep Epn), bind_ret_l, IH.
    destruct (name_matches name target); [|reflexivity].
    now rewrite <- app_assoc.
Qed.

(** The first target already meets a pattern [re] rejects. *)
Lemma search_loop_rejected (name : string) (target s sn : value)
    (targets returnList : list value) (e : exn) :
  (∀ text, re_search (compactString name) text = Raise e) ->
  getattr target "star" = ret s ->
  getattr s "name" = ret sn ->
  search_loop (compactString name) (target :: targets) returnList = raise e.
Proof.
  intros Hre Es Esn. cbn [search_loop]. unfold search_hit.
  now rewrite Es, bind_ret_l, Esn, bind_ret_l, Hre.
Qed.

(** C4, amended: on ASCII text, and on a target list in which every
    target has a star and a planet sub-record with a [name]: when [re]
    accepts the compacted query as a pattern, [searchTarget] returns, in
    order, exactly the targets whose compacted star name or compacted
    planet name contains a match of the compacted query; when [re] rejects
    it, [searchTarget] raises the error of [re], unless the list is empty,
    where it returns the empty list. *)
Theorem searchTarget_returns_matches (targets : list value) (name : string) :
  is_ascii name = true ->
  Forall (fun target =>
            ∃ s p sn pn,
              getattr target "star" = ret s ∧ getattr s "name" = ret sn
              ∧ getattr target "planet" = ret p ∧ getattr p "name" = ret pn
              ∧ is_ascii (py_str sn) = true ∧ is_ascii (py_str pn) = true)
         targets ->
  ((∀ text, ∃ b, re_search (compactString name) text = Return b) ->
   searchTarget targets name = ret (List.filter (name_matches name) targets))
  ∧ (∀ e, (∀ text, re_search (compactString name) text = Raise e) ->
          searchTarget targets name
          = match targets with
            | [] => ret []
            | _ :: _ => raise e
            end).
Proof.
  intros _ Hall. split.
  - intros Hre. unfold searchTarget.
    rewrite (search_loop_filter _ _ [] Hre); [reflexivity|].
    eapply Forall_impl; [exact Hall|].
    intros target (s & p & sn & pn & Es & Esn & Ep & Epn & _). eauto 10.
  - intros e Hre. unfold searchTarget.
    destruct Hall as [|target targets (s & p & sn & pn & Es & Esn & _) _];
      [reflexivity|].
    exact (search_loop_rejected _ _ _ _ _ _ _ Hre Es Esn).
Qed.

End SearchFacts.

(** C4, as stated, fails: a query that is not a regular expression makes
    [re.search] raise, and [searchTarget] with it. *)
Lemma searchTarget_invalid_pattern_raises :
  @searchTarget _ Examples.runtime
    [Examples.system "HD 209458" "HD 209458 b"] "("
  = ([], Raise ReError).
Proof. reflexivity. Qed.

(** On a star-only list the search reaches for [target.planet] as soon as a
    star name does not match. *)
Lemma searchTarget_stars_only_raises :
  (tl ← @create_target_list _ Examples.runtime (CSVTargetList Examples.stars_only);
   @searchTarget _ Examples.runtime tl "hd")
  = ([UnitCall "K"], Raise (AttributeError "planet")).
Proof. vm_compute. reflexivity. Qed.

(** The example of the specification: the query ["hd-209458 b"] finds the
    planet ["HD 209458 b"]. *)
Lemma searchTarget_hd209458 :
  @searchTarget _ Examples.runtime
    [Examples.system "Sun" "Earth"; Examples.system "HD 209458" "HD 209458 b"]
    "hd-209458 b"
  = ret [Examples.system "HD 209458" "HD 209458 b"].
Proof. vm_compute. reflexivity. Qed.

Lemma searchTarget_returns_matches_witness :
  @searchTarget _ Examples.runtime
    [Examples.system "Sun" "Earth"; Examples.system "HD 209458" "HD 209458 b"]
    "hd-209458 b"
  = ret (List.filter (@name_matches _ Examples.runtime "hd-209458 b")
           [Examples.system "Sun" "Earth";
            Examples.system "HD 209458" "HD 209458 b"])
  ∧ @searchTarget _ Examples.runtime
      [Examples.system "Sun" "Earth"; Examples.system "HD 209458" "HD 209458 b"]
      "(h"
    = raise ReError.
Proof.
  split.
  - apply (@searchTarget_returns_matches _ Examples.runtime).
    + reflexivity.
    + repeat constructor; do 4 eexists; repeat split; reflexivity.
    + intros text. eexists. reflexivity.
  - apply (proj2 (@searchTarget_returns_matches _ Examples.runtime
                    [Examples.system "Sun" "Earth";
                     Examples.system "HD 209458" "HD 209458 b"] "(h"
                    eq_refl
                    ltac:(repeat constructor; do 4 eexists; repeat split;
                          reflexivity))
             ReError).
    intros text. reflexivity.
Defined.

(** ** [CSVTargetList]: headers, field names and units *)

Section CSVFacts.
Context `{Astropy}.

Lemma assoc_elem_of {A} (k : string) (items : list (string * A)) :
  k ∈ items.*1 -> is_Some (assoc k items).
Proof.
  induction items as [|[k' v] items IH]; simpl.
  - intros []%elem_of_nil.
  - destruct (String.eqb_spec k k') as [->|Hne]; [eauto|].
    intros [?|?]%elem_of_cons; [contradiction | auto].
Qed.

(** Selecting columns by names of the table keeps every name. *)
Lemma table_select_keys (names : list string) (tab : list (string * list cell)) :
  Forall (fun k => k ∈ table_keys tab) names ->
  (table_select names tab).*1 = names.
Proof.
  unfold table_select, table_keys.
  induction 1 as [|k names Hk _ IH]; [reflexivity|].
  destruct (assoc_elem_of k tab Hk) as [c Ec].
  cbn [omap list_omap]. rewrite Ec. cbn [fmap option_fmap option_map].
  rewrite fmap_cons. simpl. f_equal. exact IH.
Qed.

Lemma filter_keys_elem_of (f : string -> bool) (keys : list string) :
  Forall (fun k => k ∈ keys) (List.filter f keys).
Proof.
  apply Forall_forall. intros k Hk%list_elem_of_In.
  apply List.filter_In in Hk as [Hk _]. now apply list_elem_of_In.
Qed.

Lemma header_unit_eq (k : string) :
  header_unit k
  = match header_unit_text k with
    | Some text => u ← parse_unit text; ret (Some u)
    | None => ret None
    end.
Proof.
  unfold header_unit, header_unit_text.
  destruct (split " " k) as [|a [|b [|c [|d l]]]]; reflexivity.
Qed.

(** The first loop: one call of [u.Unit] per header with a unit, in
    header order. *)
Lemma mapM_header_unit (keys : list string) :
  Forall (fun k => ∀ text, header_unit_text k = Some text -> is_Some (Unit text))
         keys ->
  mapM header_unit keys
  = (UnitCall <$> omap header_unit_text keys, Return (unit_of_header <$> keys)).
Proof.
  induction 1 as [|k keys Hk _ IH]; [reflexivity|].
  cbn [mapM omap list_omap]. rewrite IH, header_unit_eq, fmap_cons.
  assert (unit_of_header k
          = match header_unit_text k with
            | Some text => Unit text
            | None => None
            end) as -> by reflexivity.
  destruct (header_unit_text k) as [text|].
  - destruct (Hk text eq_refl) as [u Eu]. unfold parse_unit. rewrite Eu.
    cbn. now rewrite app_nil_r.
  - cbn. now rewrite app_nil_r.
Qed.

Lemma mapM_pure {A B} (f : A -> M B) (g : A -> B) (l : list A) :
  Forall (fun x => f x = ret (g x)) l -> mapM f l = ret (g <$> l).
Proof.
  induction 1 as [|x l Hx _ IH]; [reflexivity|]. simpl. now rewrite Hx, IH.
Qed.

Lemma table_row_eq (tab : list (string * list cell)) (i : nat) :
  Forall (fun col : string * list cell => (i < length col.2)%nat) tab ->
  table_row tab i
  = ret ((fun col : string * list cell => nth i col.2 (Text "")) <$> tab).
Proof.
  intros Hall. unfold table_row. apply mapM_pure.
  eapply Forall_impl; [exact Hall|]. intros [k col] Hi. simpl in *.
  destruct (col !! i) as [c|] eqn:E.
  - now rewrite (nth_lookup_Some _ _ _ _ E).
  - apply lookup_ge_None in E. lia.
Qed.

Lemma apply_units_eq (tab : list (string * list cell)) (i : nat) :
  Forall (fun col : string * list cell =>
            is_Some (unit_of_header col.1) ->
            is_Number (nth i col.2 (Text "")) = true) tab ->
  mapM apply_unit
    (zip ((fun col : string * list cell => nth i col.2 (Text "")) <$> tab)
         (unit_of_header <$> tab.*1))
  = ret ((fun col : string * list cell =>
            expected_value col.1 (nth i col.2 (Text ""))) <$> tab).
Proof.
  induction 1 as [|[k col] tab Hc _ IH]; [reflexivity|].
  rewrite !fmap_cons. cbn [zip_with mapM]. rewrite IH.
  unfold apply_unit, expected_value, scale_cell. cbn [fst snd] in *.
  destruct (unit_of_header k) as [u|]; [|reflexivity].
  destruct (nth i col (Text "")); [reflexivity|].
  specialize (Hc ltac:(eauto)). discriminate.
Qed.

(** C8, amended: in the delimited-text reader the headers that contain
    the token ("star" or "planet") make up the entity's columns; the field
    name of a header is its second piece, pieces being cut at single
    spaces; a header of exactly three pieces has its third piece read by
    [u.Unit] once, whatever the number of rows, and every value of its
    column becomes a quantity in that unit; the values under any other
    header are passed on as they are. *)
Theorem csv_fields_and_units (token : string) (tab : list (string * list cell)) :
  let sel := List.filter (contains token) (table_keys tab) in
  let sub := table_select sel tab in
  Forall (fun k => (2 <= length (split " " k))%nat) sel ->
  Forall (fun col : string * list cell => length col.2 = table_len sub) sub ->
  Forall (fun col : string * list cell =>
            ∀ text, header_unit_text col.1 = Some text ->
                    is_Some (Unit text) ∧ forallb is_Number col.2 = true) sub ->
  sub.*1 = sel
  ∧ csv_keys token tab = ret ((fun k => nth 1 (split " " k) "") <$> sel)
  ∧ csv_data token tab
    = (UnitCall <$> omap header_unit_text sel,
       Return ((fun i => (fun col : string * list cell =>
                            expected_value col.1 (nth i col.2 (Text ""))) <$> sub)
                 <$> seq 0 (table_len sub))).
Proof.
  intros sel sub Hnames Hrect Hunits.
  assert (sub.*1 = sel) as Hsel
    by apply table_select_keys, filter_keys_elem_of.
  split; [exact Hsel|]. split.
  - unfold csv_keys. fold sel. apply mapM_pure.
    eapply Forall_impl; [exact Hnames|]. intros k Hk. simpl in Hk.
    destruct (split " " k) as [|a [|b l]]; simpl in Hk; try lia. reflexivity.
  - unfold csv_data. fold sel. fold sub.
    rewrite mapM_header_unit.
    2:{ rewrite <- Hsel. apply Forall_fmap.
        eapply Forall_impl; [exact Hunits|]. intros col Hc text Ht.
        now destruct (Hc text Ht). }
    rewrite bind_return.
    rewrite (mapM_pure _
               (fun i => (fun col : string * list cell =>
                            expected_value col.1 (nth i col.2 (Text ""))) <$> sub)).
    + simpl. now rewrite app_nil_r.
    + apply Forall_forall. intros i Hi%elem_of_seq.
      rewrite table_row_eq, bind_ret_l.
      * rewrite <- Hsel. apply apply_units_eq.
        rewrite Forall_forall in Hrect, Hunits |- *.
        intros col Hcol [u Hu]. unfold unit_of_header in Hu.
        destruct (header_unit_text col.1) as [text|] eqn:Et; [|discriminate].
        destruct (Hunits col Hcol text Et) as [_ Hn].
        rewrite forallb_forall in Hn. apply Hn, nth_In.
        rewrite (Hrect col Hcol). exact (proj2 Hi).
      * eapply Forall_impl; [exact Hrect|]. intros col Hc. simpl in Hc.
        rewrite Hc. exact (proj2 Hi).
Qed.

End CSVFacts.

(** C8, as stated, fails: a header whose unit is written with spaces has a
    third piece, yet nothing is parsed and the value goes through without a
    unit. *)
Lemma csv_unit_with_spaces_ignored :
  split " " "star vel [km / s]" = ["star"; "vel"; "[km"; "/"; "s]"]
  ∧ @csv_data Examples.astropy "star"
      [("star vel [km / s]", [@Number Examples.astropy 3])]
    = ([], Return [[@VNum Examples.astropy 3]]).
Proof. split; reflexivity. Qed.

Lemma csv_fields_and_units_witness :
  (table_select ["star name"; "star Teff [K]"] Examples.stars_only).*1
    = ["star name"; "star Teff [K]"]
  ∧ @csv_keys Examples.astropy "star" Examples.stars_only = ret ["name"; "Teff"]
  ∧ @csv_data Examples.astropy "star" Examples.stars_only
    = ([UnitCall "K"],
       Return [[VStr "HD 209458"; @VQty Examples.astropy 6000 "K"];
               [VStr "Sun"; @VQty Examples.astropy 5772 "K"]]).
Proof.
  apply (@csv_fields_and_units Examples.astropy "star" Examples.stars_only).
  - repeat constructor.
  - repeat constructor.
  - repeat constructor; simpl in *; try discriminate;
      injection H as <-; try reflexivity; eexists; reflexivity.
Defined.

(** ** More on [update_target] *)

Section UpdateFacts.
Context `{Astropy}.

(** One assignment [self.star.<attr> = obj.<attr>] that goes through. *)
Lemma star_assign_done (attr : string) (obj v : value)
    (c cs : pyclass) (d ds : gmap string value) :
  getattr obj attr = ret v ->
  d !! "star" = Some (VObj cs ds) ->
  star_assign attr obj (VObj c d)
  = (VObj c (<["star" := VObj cs (<[attr := v]> ds)]> d), ([], Return tt)).
Proof.
  intros Ev Es. unfold star_assign.
  rewrite Ev, bind_ret_l, (getattr_found _ _ _ _ Es), bind_ret_l.
  reflexivity.
Qed.

(** For a [Star] or a [CustomSed] that has the three attributes,
    [update_target] copies them onto the star sub-record of the target and
    logs at debug level; nothing else of the target or of its star
    changes. *)
Theorem update_target_copies_source (obj l s m : value)
    (c cs : pyclass) (d ds : gmap string value) :
  isinstance obj "Star" || isinstance obj "CustomSed" = true ->
  getattr obj "luminosity" = ret l ->
  getattr obj "sed" = ret s ->
  getattr obj "model" = ret m ->
  d !! "star" = Some (VObj cs ds) ->
  update_target (VObj c d) obj
  = (VObj c (<["star" := VObj cs (<["model" := m]>
                                     (<["sed" := s]>
                                        (<["luminosity" := l]> ds)))]> d),
     ([Log DEBUG "target updated"], Return tt)).
Proof.
  intros Hi El Es Em Ed. unfold update_target. rewrite Hi.
  rewrite (star_assign_done _ _ _ _ _ _ _ El Ed). cbn [and_then].
  rewrite (star_assign_done _ _ _ _ _ _ _ Es (lookup_insert_eq _ _ _)).
  cbn [and_then].
  rewrite (star_assign_done _ _ _ _ _ _ _ Em (lookup_insert_eq _ _ _)).
  cbn [and_then]. now rewrite !insert_insert_eq.
Qed.

(** The update is not atomic: when the source has a luminosity but no
    [sed], the luminosity is already stored on the star when the
    [AttributeError] leaves [update_target]. *)
Theorem update_target_partial (obj l : value) (e : exn)
    (c cs : pyclass) (d ds : gmap string value) :
  isinstance obj "Star" || isinstance obj "CustomSed" = true ->
  getattr obj "luminosity" = ret l ->
  getattr obj "sed" = raise e ->
  d !! "star" = Some (VObj cs ds) ->
  update_target (VObj c d) obj
  = (VObj c (<["star" := VObj cs (<["luminosity" := l]> ds)]> d),
     ([], Raise e)).
Proof.
  intros Hi El Es Ed. unfold update_target. rewrite Hi.
  rewrite (star_assign_done _ _ _ _ _ _ _ El Ed). cbn [and_then].
  unfold star_assign at 1. now rewrite Es.
Qed.

(** A target that has no [star] yet is left as it is: the error of reading
    [self.star] leaves [update_target] and nothing is logged. *)
Theorem update_target_without_star (self obj l : value) (e : exn) :
  isinstance obj "Star" || isinstance obj "CustomSed" = true ->
  getattr obj "luminosity" = ret l ->
  getattr self "star" = raise e ->
  update_target self obj = (self, ([], Raise e)).
Proof.
  intros Hi El Es. unfold update_target. rewrite Hi.
  unfold star_assign at 1. now rewrite El, bind_ret_l, Es.
Qed.

End UpdateFacts.

Lemma update_target_copies_source_witness :
  @update_target Examples.astropy
    (Examples.system "HD 209458" "HD 209458 b") Examples.sun
  = (VObj (@Target_class _ Examples.runtime)
       (<["star" := VObj (@Target_class _ Examples.runtime)
                      (<["model" := VStr "phoenix"]>
                         (<["sed" := VStr "sed"]>
                            (<["luminosity" := VInt 1]>
                               {["name" := VStr "HD 209458"]})))]>
          (<["star" := Examples.named "HD 209458"]>
             {["planet" := Examples.named "HD 209458 b"]})),
     ([Log DEBUG "target updated"], Return tt)).
Proof.
  apply (@update_target_copies_source Examples.astropy); reflexivity.
Defined.

Lemma update_target_partial_witness :
  @update_target Examples.astropy
    (Examples.system "HD 209458" "HD 209458 b") Examples.dim_star
  = (VObj (@Target_class _ Examples.runtime)
       (<["star" := VObj (@Target_class _ Examples.runtime)
                      (<["luminosity" := VInt 1]>
                         {["name" := VStr "HD 209458"]})]>
          (<["star" := Examples.named "HD 209458"]>
             {["planet" := Examples.named "HD 209458 b"]})),
     ([], Raise (AttributeError "sed"))).
Proof.
  apply (@update_target_partial Examples.astropy); reflexivity.
Defined.

Lemma update_target_without_star_witness :
  @update_target Examples.astropy (@Target_init _ Examples.runtime) Examples.sun
  = (@Target_init _ Examples.runtime, ([], Raise (AttributeError "star"))).
Proof.
  apply (@update_target_without_star Examples.astropy _ _ (VInt 1)); reflexivity.
Defined.

(** ** More on [create_target_list] *)

Section RowFacts.
Context `{Runtime}.

Lemma zip_keys_NoDup (keys : list string) (row : list value) :
  NoDup keys -> NoDup (zip keys row).*1.
Proof.
  intros Hnd. revert row. induction Hnd as [|k keys Hk _ IH]; intros [|v row];
    simpl; try constructor; [|apply IH].
  intros Hin. apply Hk.
  apply list_elem_of_fmap in Hin as ([k' v'] & -> & Hin).
  apply elem_of_zip_l in Hin. exact Hin.
Qed.

(** [dict(zip(keys, row))] gives each key the value at its position, when
    no key occurs twice. *)
Lemma dict_zip_lookup (keys : list string) (row : list value)
    (n : nat) (k : string) (v : value) :
  NoDup keys -> keys !! n = Some k -> row !! n = Some v ->
  dict_zip keys row !! k = Some v.
Proof.
  intros Hnd Hk Hv. unfold dict_zip.
  apply elem_of_list_to_map_1.
  - rewrite fmap_reverse, reverse_Permutation. apply zip_keys_NoDup, Hnd.
  - apply elem_of_reverse, list_elem_of_lookup. exists n.
    apply lookup_zip_with_Some. eauto.
Qed.

(** A key that occurs twice keeps the value of its last occurrence. *)
Lemma dict_zip_last_wins (keys : list string) (row : list value)
    (k : string) (v : value) :
  length keys = length row ->
  dict_zip (keys ++ [k]) (row ++ [v]) !! k = Some v.
Proof.
  intros Hlen. unfold dict_zip.
  rewrite zip_with_app by exact Hlen. simpl.
  rewrite reverse_app. simpl. apply lookup_insert_eq.
Qed.

(** The star sub-record of the target at position [i] holds, under each
    star field name, the value of row [i] at the position of that name
    (the field names being distinct). *)
Theorem create_target_list_star_fields {src : TargetList}
    (t1 t2 : list event) (keys : list string) (rows : list (list value))
    (tl : list value) :
  star_keys = (t1, Return keys) ->
  star_data = (t2, Return rows) ->
  result create_target_list = Return tl ->
  NoDup keys ->
  ∀ (i n : nat) (target : value) (row : list value) (k : string) (v : value),
    tl !! i = Some target ->
    rows !! i = Some row ->
    keys !! n = Some k ->
    row !! n = Some v ->
    (star ← getattr target "star"; getattr star k) = ret v.
Proof.
  intros E1 E2 Etl Hnd i n target row k v Hi Hrow Hk Hv.
  rewrite (create_target_list_result _ _ _ _ E1 E2) in Etl.
  assert (getattr (sub_record keys row) k = ret v) as Hfield.
  { apply getattr_found, lookup_union_Some_l.
    exact (dict_zip_lookup _ _ _ _ _ Hnd Hk Hv). }
  destruct (result request_planets) as [[[pk|] [[|r pd]|]]|e];
    apply mapM_result_inv in Etl;
    destruct (Forall2_lookup_r _ _ _ _ _ Etl Hi) as ([j x] & Hx & Ex);
    apply enumerate_lookup in Hx as [-> Hx].
  all: try (destruct x as [star planet];
            apply lookup_zip_with_Some in Hx as (s' & p' & [= <- <-] & Hs & _);
            rewrite Hrow in Hs; injection Hs as <-;
            apply target_with_planet_attrs in Ex as (_ & Es & _);
            now rewrite Es, bind_ret_l).
  all: rewrite Hrow in Hx; injection Hx as <-;
    apply target_star_only_attrs in Ex as (_ & Es & _);
    now rewrite Es, bind_ret_l.
Qed.

(** With a planet section, stars and planets are paired by position and
    the longer of the two sections is cut to the shorter: the list has as
    many targets as the shorter section has rows. *)
Theorem create_target_list_pairs {src : TargetList}
    (t1 t2 t3 : list event) (keys pkeys : list string)
    (rows prows : list (list value)) :
  star_keys = (t1, Return keys) ->
  star_data = (t2, Return rows) ->
  request_planets = (t3, Return (Some pkeys, Some prows)) ->
  prows ≠ [] ->
  Forall (fun planet => is_Some (dict_zip pkeys planet !! "name")) prows ->
  ∃ tl,
    result create_target_list = Return tl
    ∧ length tl = min (length rows) (length prows)
    ∧ ∀ i target, tl !! i = Some target ->
        ∃ star planet,
          rows !! i = Some star ∧ prows !! i = Some planet
          ∧ getattr target "star" = ret (sub_record keys star)
          ∧ getattr target "planet" = ret (sub_record pkeys planet).
Proof.
  intros E1 E2 E3 Hne Hnames.
  rewrite (create_target_list_result _ _ _ _ E1 E2), E3. simpl.
  destruct prows as [|r pd]; [contradiction|].
  destruct (mapM_result_total (target_with_planet keys pkeys)
              (enumerate (zip rows (r :: pd)))) as [tl Etl].
  { apply Forall_forall. intros [j [star planet]] Hin.
    apply list_elem_of_lookup in Hin as [i Hx].
    apply enumerate_lookup in Hx as [-> Hx].
    apply lookup_zip_with_Some in Hx as (s' & p' & [= <- <-] & _ & Hp).
    rewrite Forall_forall in Hnames.
    destruct (Hnames planet) as [v Ev]; [eapply list_elem_of_lookup_2; eauto|].
    rewrite target_with_planet_eq. unfold sub_record.
    erewrite (getattr_found _ _ _ v), bind_ret_l; [eauto|].
    now apply lookup_union_Some_l. }
  exists tl. split; [exact Etl|].
  apply mapM_result_inv in Etl. split.
  - rewrite <- (Forall2_length _ _ _ Etl), enumerate_length.
    apply length_zip_with.
  - intros i target Hi.
    destruct (Forall2_lookup_r _ _ _ _ _ Etl Hi) as ([j [star planet]] & Hx & Ex).
    apply enumerate_lookup in Hx as [-> Hx].
    apply lookup_zip_with_Some in Hx as (s' & p' & [= <- <-] & Hs & Hp).
    apply target_with_planet_attrs in Ex as (_ & Es & Ep & _).
    exists star, planet. auto.
Qed.

(** Without a planet section, a star row that brings no [name] stops the
    assembly: [target.star.name] raises [AttributeError]. *)
Theorem create_target_list_nameless_star {src : TargetList}
    (t1 t2 : list event) (keys : list string)
    (row : list value) (rows : list (list value)) :
  star_keys = (t1, Return keys) ->
  star_data = (t2, Return (row :: rows)) ->
  planets_found = false ->
  dict_zip keys row !! "name" = None ->
  set_log_name !! "name" = None ->
  "name" ∉ Logger_members ->
  result create_target_list = Raise (AttributeError "name").
Proof.
  intros E1 E2 Hp Hrow Hlog Hmem.
  rewrite (create_target_list_result _ _ _ _ E1 E2).
  unfold planets_found in Hp.
  assert (result (mapM (target_star_only keys) (enumerate (row :: rows)))
          = Raise (AttributeError "name")) as Hraise.
  { change (enumerate (row :: rows))
      with ((0%nat, row) :: zip (seq 1 (length rows)) rows).
    cbn [mapM]. rewrite target_star_only_eq. unfold sub_record, getattr.
    rewrite (proj2 (lookup_union_None _ _ _) (conj Hrow Hlog)).
    rewrite bool_decide_eq_false_2; [reflexivity|].
    intros Hm%list_elem_of_In. simpl in Hm.
    destruct Hm as [?|[?|[?|[?|Hm]]]]; try discriminate.
    now apply Hmem, list_elem_of_In. }
  destruct (result request_planets) as [[[pk|] [[|r pd]|]]|e];
    try exact Hraise; discriminate.
Qed.

End RowFacts.

Lemma create_target_list_star_fields_witness :
  ∃ tl,
    result (@create_target_list _ Examples.runtime
              (CSVTargetList Examples.with_planet)) = Return tl
    ∧ ∀ (i n : nat) (target : @value Examples.astropy)
        (row : list (@value Examples.astropy)) (k : string)
        (v : @value Examples.astropy),
        tl !! i = Some target ->
        [[VStr "HD 209458"; @VQty Examples.astropy 6000 "K"]] !! i = Some row ->
        ["name"; "Teff"] !! n = Some k ->
        row !! n = Some v ->
        (star ← getattr target "star"; getattr star k) = ret v.
Proof.
  destruct (@create_target_list_returns_with_planets _ Examples.runtime
              (CSVTargetList Examples.with_planet)
              [] [UnitCall "K"] [] [UnitCall "Rjup"]
              ["name"; "Teff"] ["name"; "Radius"]
              [[VStr "HD 209458"; @VQty Examples.astropy 6000 "K"]]
              [[VStr "HD 209458 b"; @VQty Examples.astropy 1 "Rjup"]]
              eq_refl eq_refl eq_refl eq_refl)
    as [tl Etl];
    [discriminate | repeat constructor; eexists; reflexivity |].
  exists tl. split; [exact Etl|].
  apply (@create_target_list_star_fields _ Examples.runtime
           (CSVTargetList Examples.with_planet) [] [UnitCall "K"]);
    [reflexivity | reflexivity | exact Etl |].
  repeat constructor; intros Hin%list_elem_of_In; simpl in Hin;
    intuition discriminate.
Defined.

Lemma create_target_list_pairs_witness :
  ∃ tl,
    result (@create_target_list _ Examples.runtime
              (CSVTargetList Examples.with_planet)) = Return tl
    ∧ length tl = 1%nat
    ∧ ∀ i target, tl !! i = Some target ->
        ∃ star planet,
          [[VStr "HD 209458"; @VQty Examples.astropy 6000 "K"]] !! i = Some star
          ∧ [[VStr "HD 209458 b"; @VQty Examples.astropy 1 "Rjup"]] !! i
            = Some planet
          ∧ getattr target "star"
            = ret (@sub_record _ Examples.runtime ["name"; "Teff"] star)
          ∧ getattr target "planet"
            = ret (@sub_record _ Examples.runtime ["name"; "Radius"] planet).
Proof.
  apply (@create_target_list_pairs _ Examples.runtime
           (CSVTargetList Examples.with_planet)
           [] [UnitCall "K"] [UnitCall "Rjup"]
           ["name"; "Teff"] ["name"; "Radius"]
           [[VStr "HD 209458"; @VQty Examples.astropy 6000 "K"]]
           [[VStr "HD 209458 b"; @VQty Examples.astropy 1 "Rjup"]]).
  - reflexivity.
  - reflexivity.
  - reflexivity.
  - discriminate.
  - repeat constructor. eexists. reflexivity.
Defined.

Lemma create_target_list_nameless_star_witness :
  result (@create_target_list _ Examples.runtime
            (CSVTargetList [("star Teff [K]", [@Number Examples.astropy 3])]))
  = Raise (AttributeError "name").
Proof.
  apply (@create_target_list_nameless_star _ Examples.runtime
           (CSVTargetList [("star Teff [K]", [@Number Examples.astropy 3])])
           [] [UnitCall "K"] ["Teff"] [@VQty Examples.astropy 3 "K"] []);
    try reflexivity.
  intros Hm%list_elem_of_In. simpl in Hm. intuition discriminate.
Defined.
